(** * Import-graph core of the editor: paths, workspace, source files

    A shallow embedding of [workspace/path.py], [workspace/workspace.py],
    [graph/edge.py] and [graph/py_file.py], with the properties of the
    design document stated and proved over it.

    Conventions.  Python [str] is [string]; a Python [int] is [Z]; lengths
    and slice bounds that the code keeps non-negative are [nat].  A Python
    [set] is a [gset], a call that may raise returns a [result].  Library
    functions that only look at the text of a path ([os.path.join],
    [basename], [normpath], [relpath], ...) are written out in
    [PosixPath]; the ones that ask the outside world ([os.path.realpath],
    [ast.parse], [json.dumps], the module finder) are section variables.

    The file has two parts: the embedding, then the properties. *)

From Stdlib Require Import ZArith Ascii String.
From stdpp Require Import gmap strings list.

Set Warnings "-register-all,-clear-no-such-hyp".

Local Open Scope Z_scope.
Local Open Scope nat_scope.

(** * Part I: the embedding *)

(** ** Exceptions and results *)

Inductive exn : Type :=
  | AssertionError
  | ValueError
  | SyntaxError (msg : string)
  | IOError (msg : string)
  | ImportError (msg : string)
  | OtherError (msg : string).

Inductive result (A : Type) : Type :=
  | Ok (a : A)
  | Raise (e : exn).
Arguments Ok {A} a.
Arguments Raise {A} e.

#[global] Instance result_ret : MRet result := λ A a, Ok a.
#[global] Instance result_bind : MBind result := λ A B k r,
  match r with
  | Ok a => k a
  | Raise e => Raise e
  end.

(** ** Logging: the records the code hands to [logging] *)

Inductive level : Type := DEBUG | INFO | ERROR.

(** ** Python string operations *)

Module PyStr.

Definition len (s : string) : nat := String.length s.

(** [s[:n]] for [0 <= n]. *)
Fixpoint take (n : nat) (s : string) : string :=
  match n, s with
  | S n', String a s' => String a (take n' s')
  | _, _ => EmptyString
  end.

(** [s[n:]] for [0 <= n]. *)
Fixpoint drop (n : nat) (s : string) : string :=
  match n, s with
  | S n', String _ s' => drop n' s'
  | _, _ => s
  end.

(** [s[-n:]]: the last [n] characters, all of [s] when [n] is not less
    than its length, and all of [s] for [n = 0] since [-0] is [0]. *)
Definition last_chars (n : nat) (s : string) : string :=
  match n with
  | 0 => s
  | _ => drop (len s - n) s
  end.

Definition startswith (s p : string) : bool := String.prefix p s.

Fixpoint endswith_char (s : string) (c : ascii) : bool :=
  match s with
  | EmptyString => false
  | String a EmptyString => Ascii.eqb a c
  | String _ s' => endswith_char s' c
  end.

(** [s.rfind(c) + 1]: one past the last occurrence of [c], 0 without one. *)
Fixpoint rfind1 (c : ascii) (s : string) : nat :=
  match s with
  | EmptyString => 0
  | String a s' =>
      match rfind1 c s' with
      | 0 => if Ascii.eqb a c then 1 else 0
      | S r => S (S r)
      end
  end.

(** [s.split(c)], never empty. *)
Fixpoint split (c : ascii) (s : string) : list string :=
  match s with
  | EmptyString => [EmptyString]
  | String a s' =>
      if Ascii.eqb a c then EmptyString :: split c s'
      else match split c s' with
           | h :: t => String a h :: t
           | [] => [String a EmptyString]
           end
  end.

(** [sep.join(l)]. *)
Fixpoint join (sep : string) (l : list string) : string :=
  match l with
  | [] => EmptyString
  | [x] => x
  | x :: l' => x +:+ sep +:+ join sep l'
  end.

(** [s.rstrip(c)]. *)
Fixpoint rstrip (c : ascii) (s : string) : string :=
  match s with
  | EmptyString => EmptyString
  | String a s' =>
      match rstrip c s' with
      | EmptyString => if Ascii.eqb a c then EmptyString else String a EmptyString
      | r => String a r
      end
  end.

Fixpoint all_char (c : ascii) (s : string) : bool :=
  match s with
  | EmptyString => true
  | String a s' => Ascii.eqb a c && all_char c s'
  end.

Fixpoint mem_char (c : ascii) (s : string) : bool :=
  match s with
  | EmptyString => false
  | String a s' => Ascii.eqb a c || mem_char c s'
  end.

(** Number of positions of [s] at which [pat] starts (overlaps count). *)
Fixpoint count (pat s : string) : nat :=
  match s with
  | EmptyString => if String.eqb pat EmptyString then 1 else 0
  | String _ s' => (if String.prefix pat s then 1 else 0) + count pat s'
  end.

End PyStr.

(** ** [posixpath]: the text-only part of [os.path] *)

Module PosixPath.

Definition sep : ascii := "/"%char.

Definition isabs (p : string) : bool := PyStr.startswith p "/".

(** One step of [os.path.join(a, b)]. *)
Definition join (a b : string) : string :=
  if PyStr.startswith b "/" then b
  else if String.eqb a EmptyString || PyStr.endswith_char a sep then a +:+ b
  else a +:+ "/" +:+ b.

(** [os.path.join(a, *ps)]. *)
Definition join_many (a : string) (ps : list string) : string :=
  foldl join a ps.

Definition basename (p : string) : string :=
  PyStr.drop (PyStr.rfind1 sep p) p.

Definition dirname (p : string) : string :=
  let head := PyStr.take (PyStr.rfind1 sep p) p in
  if negb (String.eqb head EmptyString) && negb (PyStr.all_char sep head)
  then PyStr.rstrip sep head
  else head.

(** The loop of [normpath] over the components, [new_comps] kept reversed. *)
Fixpoint norm_comps (initial_slashes : nat) (comps rev_new : list string)
  : list string :=
  match comps with
  | [] => rev rev_new
  | comp :: rest =>
      if String.eqb comp "" || String.eqb comp "." then
        norm_comps initial_slashes rest rev_new
      else if negb (String.eqb comp "..")
              || (Nat.eqb initial_slashes 0 && bool_decide (rev_new = []))
              || match rev_new with
                 | top :: _ => String.eqb top ".."
                 | [] => false
                 end
      then norm_comps initial_slashes rest (comp :: rev_new)
      else norm_comps initial_slashes rest (tail rev_new)
  end.

Definition normpath (path : string) : string :=
  if String.eqb path EmptyString then "."
  else
    let initial_slashes :=
      if PyStr.startswith path "/" then
        if PyStr.startswith path "//" && negb (PyStr.startswith path "///")
        then 2 else 1
      else 0 in
    let comps := norm_comps initial_slashes (PyStr.split sep path) [] in
    let path' := PyStr.join "/" comps in
    let path'' :=
      match initial_slashes with
      | 0 => path'
      | 1 => "/" +:+ path'
      | _ => "//" +:+ path'
      end in
    if String.eqb path'' EmptyString then "." else path''.

Section Cwd.
(** The process's working directory, an absolute path. *)
Variable cwd : string.

Definition abspath (path : string) : string :=
  normpath (if isabs path then path else join cwd path).

Fixpoint common_prefix_len (l1 l2 : list string) : nat :=
  match l1, l2 with
  | x :: l1', y :: l2' =>
      if String.eqb x y then S (common_prefix_len l1' l2') else 0
  | _, _ => 0
  end.

Definition nonempty_comps (p : string) : list string :=
  filter (λ x, x ≠ EmptyString) (PyStr.split sep p).

Definition relpath (path start : string) : result string :=
  if String.eqb path EmptyString then Raise ValueError
  else
    let start_list := nonempty_comps (abspath start) in
    let path_list := nonempty_comps (abspath path) in
    let i := common_prefix_len start_list path_list in
    let rel_list :=
      replicate (length start_list - i) ".."%string
        ++ list.drop i path_list in
    match rel_list with
    | [] => Ok "."%string
    | x :: xs => Ok (join_many x xs)
    end.
End Cwd.

End PosixPath.

(** ** [workspace/path.py]: class [Path] *)

Module Path.

(** The two attributes [__init__] stores.  [__eq__] and [__hash__] are over
    the pair, which is equality of records. *)
Record t : Type := mk { abs : string; ws_root : string }.

#[global] Instance t_eq_dec : EqDecision t.
Proof. solve_decision. Defined.

#[global] Instance t_countable : Countable t :=
  inj_countable' (λ p, (abs p, ws_root p)) (λ '(a, r), mk a r)
                 (λ p, match p with mk _ _ => eq_refl end).

Section OS.
(** [os.path.realpath] (it reads symbolic links) and the working
    directory that [os.path.relpath] completes relative paths with. *)
Variable realpath : string → string.
Variable cwd : string.

(** [Path(path, ws_root)]. *)
Definition new (path ws_root : string) : t :=
  {| abs := if PosixPath.isabs path then realpath path
            else realpath (PosixPath.join ws_root path);
     ws_root := ws_root |}.

Definition rel (self : t) : result string :=
  PosixPath.relpath cwd (abs self) (ws_root self).

Definition shortest (self : t) : result string :=
  r ← rel self;
  Ok (if PyStr.len r <? PyStr.len (abs self) then r else abs self).

Definition in_workspace (self : t) : bool :=
  PyStr.startswith (abs self) (ws_root self).

Definition basename (self : t) : string := PosixPath.basename (abs self).

(** [int(max_len * 2 / 3)]: the float quotient truncated.  For the
    non-negative [max_len] that pass the assertion this is the integer
    quotient (exactly so while [2 * max_len] is within the 53 bits of a
    float's mantissa). *)
Definition two_thirds (max_len : Z) : Z := (max_len * 2 / 3)%Z.

Definition abbreviate (self : t) (max_len : Z) (require_basename : bool)
  : result string :=
  if (max_len <? 16)%Z then Raise AssertionError
  else
    res ← shortest self;
    if (Z.of_nat (PyStr.len res) <=? max_len)%Z then Ok res
    else
      let suffix_count := two_thirds max_len in
      let suffix_count :=
        if require_basename then
          if (suffix_count <? Z.of_nat (PyStr.len (PosixPath.basename res)))%Z
          then Z.of_nat (PyStr.len (PosixPath.basename res))
          else suffix_count
        else suffix_count in
      let prefix_count := (max_len - suffix_count - 2)%Z in
      let prefix_count := if (prefix_count <? 0)%Z then 0%Z else prefix_count in
      Ok (PyStr.take (Z.to_nat prefix_count) res
            +:+ ".." +:+ PyStr.last_chars (Z.to_nat suffix_count) res).

End OS.

(** What [in_workspace] is documented to decide: [p] is the directory
    [root] or lies in its subtree, component by component. *)
Definition lies_under (p root : string) : bool :=
  let rc := PosixPath.nonempty_comps root in
  let pc := PosixPath.nonempty_comps p in
  bool_decide (list.take (length rc) pc = rc).

End Path.

Abbreviation Path := Path.t.

(** ** What the code logs *)

Inductive log_msg : Type :=
  | LoadingFileList
  | FailedToWrite (config_path : string) (e : string)
  | CouldntParse (p : Path) (e : string)
  | FailedToResolve (p : Path) (name : string) (e : string).

Record log_record : Type := LogRecord { lvl : level; msg : log_msg }.

(** ** [workspace/workspace.py]: class [Workspace] *)

Module Workspace.

(** The config document, with the keys the accessors read and the types
    the design gives them; an absent key is [None].  ([editor_options],
    which no operation below reads, is left out.) *)
Record Config : Type := mkConfig {
  cfg_root_dir : option string;
  cfg_exclude_files : option (list string);
  cfg_python_path : option (list string);
  cfg_open_files : option (list string)
}.

Definition empty_config : Config := mkConfig None None None None.

(** A directory as [os.walk] sees it.  [FDirStub] is an entry that is
    listed among the directory names and not descended into: a symbolic
    link to a directory (the walk does not follow links) or a directory
    that cannot be listed. *)
Inductive fsnode : Type :=
  | FFile (name : string)
  | FDir (name : string) (children : list fsnode)
  | FDirStub (name : string).

Definition node_name (n : fsnode) : string :=
  match n with
  | FFile name | FDir name _ | FDirStub name => name
  end.

Definition is_dir_entry (n : fsnode) : bool :=
  match n with
  | FFile _ => false
  | _ => true
  end.

Definition dir_names (entries : list fsnode) : list string :=
  node_name <$> filter (λ n, is_dir_entry n = true) entries.

Definition file_names (entries : list fsnode) : list string :=
  node_name <$> filter (λ n, is_dir_entry n = false) entries.

(** [name.startswith(".") or (name in self.exclude_files)]. *)
Definition skipped (exclude_files : list string) (name : string) : bool :=
  PyStr.startswith name "." || bool_decide (name ∈ exclude_files).

(** [list.remove(x)]: the first occurrence goes. *)
Fixpoint list_remove (x : string) (l : list string) : list string :=
  match l with
  | [] => []
  | y :: l' => if String.eqb y x then l' else y :: list_remove x l'
  end.

(** [for name in list(dirnames): if ...: dirnames.remove(name)]: the loop
    runs over a copy and edits the list [os.walk] goes on to use. *)
Definition prune (exclude_files dirnames : list string) : list string :=
  foldl (λ ds name, if skipped exclude_files name then list_remove name ds else ds)
        dirnames dirnames.

(** The paths the second loop of the body adds for one directory. *)
Definition dir_paths (exclude_files : list string) (dirpath : string)
    (dirnames filenames : list string) : list string :=
  PosixPath.join dirpath
    <$> filter (λ name, skipped exclude_files name = false) (dirnames ++ filenames).

(** [os.walk(top, topdown=True)] run together with the loop body: the
    paths joined for the directory at [top], then, for every directory
    still in the pruned [dirnames], the same below it. *)
Fixpoint walk (exclude_files : list string) (top : string) (n : fsnode)
  : list string :=
  match n with
  | FDir _ children =>
      let dirnames := prune exclude_files (dir_names children) in
      let filenames := file_names children in
      dir_paths exclude_files top dirnames filenames
        ++ flat_map (λ c,
             match c with
             | FDir name _ =>
                 if bool_decide (name ∈ dirnames)
                 then walk exclude_files (PosixPath.join top name) c
                 else []
             | _ => []
             end) children
  | _ => []
  end.

(** The entries of a directory tree by their names from the top down:
    [entry_at tree comps] says that following the names [comps] from the
    directory [tree], through directories that can be listed, ends at an
    entry. *)
Inductive entry_at : fsnode → list string → Prop :=
  | entry_here (n : string) (children : list fsnode) (c : fsnode) :
      c ∈ children → entry_at (FDir n children) [node_name c]
  | entry_below (n : string) (children : list fsnode)
      (name : string) (cs : list fsnode) (comps : list string) :
      FDir name cs ∈ children →
      entry_at (FDir name cs) comps →
      entry_at (FDir n children) (name :: comps).

(** The part of the file system the config is kept in: what is at a
    path, keyed by the absolute path. *)
Inductive fsobj : Type :=
  | FsFile (content : string)
  | FsDir.

Definition isdir (fs : gmap string fsobj) (p : string) : bool :=
  match fs !! p with
  | Some FsDir => true
  | _ => false
  end.

(** [open(p, 'w')]: the message of the [IOError] it raises where [p] is
    a directory or its directory is missing, [None] where it opens. *)
Definition open_error (fs : gmap string fsobj) (p : string) : option string :=
  match fs !! p with
  | Some FsDir => Some "Is a directory"%string
  | _ =>
      if isdir fs (PosixPath.dirname p) then None
      else Some "No such file or directory"%string
  end.

(** How the write to an opened file ends: the device takes the whole
    text, or it raises an [IOError] after the first [reached] characters
    of the text got into the file (none of them, where the failure comes
    before anything is flushed). *)
Inductive written : Type :=
  | Whole
  | Failed (reached : nat) (msg : string).

(** [with open(p, 'w') as f: f.write(content)]: the file system it
    leaves and the message of the [IOError] it raised, if it did.  The
    open truncates the file before anything is written, so a write that
    fails leaves what had reached the file, not what was there before. *)
Definition write_file (device : string → string → written)
    (fs : gmap string fsobj) (p content : string)
  : gmap string fsobj * option string :=
  match open_error fs p with
  | Some e => (fs, Some e)
  | None =>
      match device p content with
      | Whole => (<[p := FsFile content]> fs, None)
      | Failed reached e => (<[p := FsFile (PyStr.take reached content)]> fs, Some e)
      end
  end.

Section Workspace.
(** The state the listeners live in; a listener is called with
    [(removed, added)], changes that state, and returns or raises.  It
    leaves the workspace and the two sets it is handed alone. *)
Context {W : Type}.
Variable realpath : string → string.
Variable cwd : string.
(** [json.dumps(config, indent=4)]. *)
Variable json_dumps : Config → string.
(** What the device does with a text written to a path. *)
Variable device : string → string → written.

Definition Listener : Type := gset Path → gset Path → W → W * option exn.

Record t : Type := mk {
  workspace_dir : string;
  files : gset Path;
  file_listeners : list Listener;
  config : Config
}.

Definition root_dir (self : t) : string :=
  default (PosixPath.dirname (workspace_dir self)) (cfg_root_dir (config self)).

Definition python_path (self : t) : list string :=
  default [] (cfg_python_path (config self)).

Definition exclude_files (self : t) : list string :=
  default [] (cfg_exclude_files (config self)).

Definition open_files (self : t) : list Path :=
  (λ p, Path.new realpath p (root_dir self)) <$> default [] (cfg_open_files (config self)).

(** One call of a listener, as the loop makes it. *)
Record call : Type := Call {
  callee : nat;
  arg_removed : gset Path;
  arg_added : gset Path
}.

(** [for listener in self.file_listeners: listener(removed, added)],
    from the listener at index [idx] on: the state the listeners leave,
    the calls made, and the exception that ended the loop, if one did. *)
Fixpoint run_listeners (ls : list Listener) (idx : nat)
    (removed added : gset Path) (w : W) : W * list call * option exn :=
  match ls with
  | [] => (w, [], None)
  | l :: ls' =>
      let c := Call idx removed added in
      match l removed added w with
      | (w1, Some e) => (w1, [c], Some e)
      | (w1, None) =>
          let '(w2, cs, e) := run_listeners ls' (S idx) removed added w1 in
          (w2, c :: cs, e)
      end
  end.

(** The calls the loop makes to the listeners at the indices from [idx],
    [k] of them. *)
Definition calls_from (idx k : nat) (removed added : gset Path) : list call :=
  (λ i, Call i removed added) <$> seq idx k.

(** The set the walk of [reload_file_list] builds. *)
Definition walked_files (self : t) (tree : fsnode) : gset Path :=
  let root := root_dir self in
  list_to_set
    ((λ p, Path.new realpath (realpath p) root)
       <$> walk (exclude_files self) root tree).

Record reloaded : Type := Reloaded {
  ws_after : t;
  client_after : W;
  calls : list call;
  raised : option exn;
  logged : list log_record
}.

(** [reload_file_list], with [tree] the directory at [root_dir]. *)
Definition reload_file_list (self : t) (tree : fsnode) (w : W) : reloaded :=
  let new_files := walked_files self tree in
  let removed := files self ∖ new_files in
  let added := new_files ∖ files self in
  let self' := mk (workspace_dir self) new_files (file_listeners self) (config self) in
  let '(w', cs, e) := run_listeners (file_listeners self') 0 removed added w in
  Reloaded self' w' cs e [LogRecord INFO LoadingFileList].

(** [_write_config]: the file system and the log records it leaves. *)
Definition _write_config (self : t) (fs : gmap string fsobj)
  : gmap string fsobj * list log_record :=
  if negb (isdir fs (workspace_dir self)) then (fs, [])
  else
    let config_path := PosixPath.join (workspace_dir self) "config" in
    match write_file device fs config_path (json_dumps (config self)) with
    | (fs', None) => (fs', [])
    | (fs', Some e) => (fs', [LogRecord ERROR (FailedToWrite config_path e)])
    end.

(** What a setter's write may leave behind, [fs] before and [fs'] after:
    nothing where the workspace directory is missing; otherwise the
    config file with the dumped config; or, where the file cannot be
    opened, the file system as it was and an error record; or, where the
    write fails after the open, the config file with what had reached it
    and an error record. *)
Definition write_outcome (self : t) (fs fs' : gmap string fsobj)
    (logs : list log_record) : Prop :=
  let config_path := PosixPath.join (workspace_dir self) "config" in
  let content := json_dumps (config self) in
  if isdir fs (workspace_dir self) then
    (open_error fs config_path = None
     ∧ device config_path content = Whole
     ∧ fs' = <[config_path := FsFile content]> fs ∧ logs = [])
    ∨ (∃ e, open_error fs config_path = Some e
            ∧ fs' = fs
            ∧ logs = [LogRecord ERROR (FailedToWrite config_path e)])
    ∨ (∃ reached e,
         open_error fs config_path = None
         ∧ device config_path content = Failed reached e
         ∧ fs' = <[config_path := FsFile (PyStr.take reached content)]> fs
         ∧ logs = [LogRecord ERROR (FailedToWrite config_path e)])
  else fs' = fs ∧ logs = [].

Definition with_config (self : t) (c : Config) : t :=
  mk (workspace_dir self) (files self) (file_listeners self) c.

(** The setter of [open_files]; [p.rel] may raise. *)
Definition set_open_files (self : t) (fs_files : list Path) (fs : gmap string fsobj)
  : result (t * gmap string fsobj * list log_record) :=
  rels ← mapM (Path.rel cwd) fs_files;
  let c := config self in
  let self' := with_config self
    (mkConfig (cfg_root_dir c) (cfg_exclude_files c) (cfg_python_path c) (Some rels)) in
  let '(fs', logs) := _write_config self' fs in
  Ok (self', fs', logs).

(** The setter of [root_dir]. *)
Definition set_root_dir (self : t) (root : string) (fs : gmap string fsobj)
  : result (t * gmap string fsobj * list log_record) :=
  let c := config self in
  let self' := with_config self
    (mkConfig (Some root) (cfg_exclude_files c) (cfg_python_path c) (cfg_open_files c)) in
  let '(fs', logs) := _write_config self' fs in
  Ok (self', fs', logs).

End Workspace.

End Workspace.

(** ** [graph/edge.py] *)

Inductive EdgeType : Type := IMPORT | DECLARE | REFER | CALL.

#[global] Instance EdgeType_eq_dec : EqDecision EdgeType.
Proof. solve_decision. Defined.

#[global] Instance EdgeType_countable : Countable EdgeType :=
  inj_countable'
    (λ k, match k with IMPORT => 0 | DECLARE => 1 | REFER => 2 | CALL => 3 end)
    (λ n, match n with 0 => IMPORT | 1 => DECLARE | 2 => REFER | _ => CALL end)
    (λ k, match k with IMPORT | DECLARE | REFER | CALL => eq_refl end).

(** A vertex object is known by its identity: the key it has in the
    store of vertices. *)
Definition vid : Type := nat.

(** The named tuple [Edge(type, source, dest)]; [source] and [dest] are
    references to vertices. *)
Record Edge : Type := mkEdge { type : EdgeType; source : vid; dest : vid }.

#[global] Instance Edge_eq_dec : EqDecision Edge.
Proof. solve_decision. Defined.

#[global] Instance Edge_countable : Countable Edge :=
  inj_countable' (λ e, (type e, source e, dest e))
                 (λ '(k, s, d), mkEdge k s d)
                 (λ e, match e with mkEdge _ _ _ => eq_refl end).

(** ** [graph/py_file.py]: class [PyFile] *)

Module PyFile.

(** The syntax tree as far as [_load] looks at it: the two import
    statements with the names they carry ([alias.name], and [module] of a
    [from] import that names one), and any other node with its children. *)
Inductive ast : Type :=
  | Import (names : list string)
  | ImportFrom (module : string) (names : list string)
  | Node (children : list ast).

Definition child_nodes (n : ast) : list ast :=
  match n with
  | Node cs => cs
  | _ => []
  end.

Fixpoint ast_size (n : ast) : nat :=
  match n with
  | Node cs => S (list_sum (ast_size <$> cs))
  | _ => 1
  end.

(** The loop of [ast.walk]: take the first node of the queue, put its
    children at the end, yield it. *)
Fixpoint walk_queue (fuel : nat) (todo : list ast) : list ast :=
  match fuel, todo with
  | S fuel', n :: todo' => n :: walk_queue fuel' (todo' ++ child_nodes n)
  | _, _ => []
  end.

(** [ast.walk(tree)]; the loop runs once per node of the tree. *)
Definition walk (tree : ast) : list ast := walk_queue (ast_size tree) [tree].

(** The nodes of a tree, itself included. *)
Inductive node_of : ast → ast → Prop :=
  | node_of_self (t : ast) : node_of t t
  | node_of_child (n c : ast) (cs : list ast) :
      c ∈ cs → node_of n c → node_of n (Node cs).

(** What one node adds to [parsed_imports]: pairs
    [(name, maybe_not_module)]. *)
Definition node_imports (n : ast) : list (string * bool) :=
  match n with
  | Import names => (λ name, (name, false)) <$> names
  | ImportFrom module names =>
      (module, false) :: ((λ name, (module +:+ "." +:+ name, true)) <$> names)
  | Node _ => []
  end.

Definition parsed_imports (tree : ast) : list (string * bool) :=
  flat_map node_imports (walk tree).

(** The attributes of a vertex that the code reads and writes.  The
    lists [functions], [classes] and [calls], which nothing fills, are
    left out; [workspace] and [finder] are passed to [_load]. *)
Record t : Type := mk {
  path : Path;
  imports : gset Path;
  outgoing : gset Edge;
  incoming : gset Edge
}.

Section Load.
Context {W Finder Parent : Type}.
Variable realpath : string → string.
(** [open(p).read()] and [ast.parse]. *)
Variable read_file : string → result string.
Variable parse : string → result ast.
(** [graph.parsers.python3.resolve_import(name, finder, python_path)],
    returning [(parent, paths)] or raising. *)
Variable resolve_import : string → Finder → list string → result (Parent * list string).

(** The second loop of [_load], over [parsed_imports]: the set and the
    log it has built so far go in, and come out extended. *)
Fixpoint load_imports (self : t) (workspace : Workspace.t (W:=W)) (finder : Finder)
    (parsed : list (string * bool))
    (new_imports : gset Path) (logs : list log_record)
  : result (gset Path * list log_record) :=
  match parsed with
  | [] => Ok (new_imports, logs)
  | (name, maybe_not_module) :: rest =>
      match resolve_import name finder (Workspace.python_path workspace) with
      | Ok (_, paths) =>
          let found : gset Path :=
            list_to_set
              ((λ p, Path.new realpath (realpath p) (Workspace.root_dir workspace))
                 <$> paths) in
          load_imports self workspace finder rest (new_imports ∪ found) logs
      | Raise (ImportError e) =>
          let logs' :=
            if maybe_not_module then logs
            else logs ++ [LogRecord INFO (FailedToResolve (path self) name e)] in
          load_imports self workspace finder rest new_imports logs'
      | Raise e => Raise e
      end
  end.

Definition _load (self : t) (workspace : Workspace.t (W:=W)) (finder : Finder)
  : result (t * list log_record) :=
  text ← read_file (Path.abs (path self));
  match parse text with
  | Raise (SyntaxError e) =>
      Ok (self, [LogRecord INFO (CouldntParse (path self) e)])
  | Raise e => Raise e
  | Ok tree =>
      '(new_imports, logs) ←
        load_imports self workspace finder (parsed_imports tree) ∅ [];
      Ok (mk (path self) new_imports (outgoing self) (incoming self), logs)
  end.

(** [PyFile(path, workspace, finder, no_load)]. *)
Definition new (p : Path) (workspace : Workspace.t (W:=W)) (finder : Finder)
    (no_load : bool) : result (t * list log_record) :=
  let self := mk p ∅ ∅ ∅ in
  if no_load then Ok (self, []) else _load self workspace finder.

End Load.

(** *** Linking *)

Definition add_outgoing (e : Edge) (f : t) : t :=
  mk (path f) (imports f) ({[e]} ∪ outgoing f) (incoming f).

Definition add_incoming (e : Edge) (f : t) : t :=
  mk (path f) (imports f) (outgoing f) ({[e]} ∪ incoming f).

Section Visit.
(** [source_graph.find_file(i)]: the vertex kept for a path, if any. *)
Variable find_file : Path → option vid.

(** The body of the loop of [visit] for one import [i] of vertex [self]. *)
Definition visit_import (self : vid) (σ : gmap vid t) (i : Path) : gmap vid t :=
  match find_file i with
  | None => σ
  | Some d =>
      let e := mkEdge IMPORT self d in
      alter (add_incoming e) d (alter (add_outgoing e) self σ)
  end.

(** [self.visit(source_graph)] on the store of vertices. *)
Definition visit (self : vid) (σ : gmap vid t) : gmap vid t :=
  match σ !! self with
  | None => σ
  | Some f => foldl (visit_import self) σ (elements (imports f))
  end.

End Visit.

End PyFile.

(** ** The import resolver *)

Module Resolver.

(** What a finder reports a name to be. *)
Inductive ModKind : Type := PY_SOURCE | PKG_DIRECTORY.

(** A finder: a name and the search path to look it up in give the file
    or directory found and its kind, or an [ImportError]. *)
Definition Finder : Type := string → list string → result (string * ModKind).

(** A package's initializer file. *)
Definition init_file (pkg_dir : string) : string :=
  PosixPath.join pkg_dir "__init__.py".

(** Modelled from the spec: [graph.parsers.python3.resolve_import], whose
    source is not part of the files at hand; design section 4.3.  The
    segments are resolved in turn: a package contributes its initializer
    and becomes the search path of the next segment; a module ends the
    name; a segment that is not found, or a module with segments left
    over, is an [ImportError]. *)
Fixpoint resolve_segments (finder : Finder) (search_path : list string)
    (segments : list string) : result (list string * list string) :=
  match segments with
  | [] => Ok (search_path, [])
  | seg :: rest =>
      '(found, kind) ← finder seg search_path;
      match kind with
      | PKG_DIRECTORY =>
          '(parent, paths) ← resolve_segments finder [found] rest;
          Ok (parent, init_file found :: paths)
      | PY_SOURCE =>
          match rest with
          | [] => Ok (search_path, [found])
          | _ => Raise (ImportError "not a package")
          end
      end
  end.

(** Modelled from the spec: the entry point of the resolver, splitting
    the dotted name into its segments. *)
Definition resolve_import (name : string) (finder : Finder)
    (python_path : list string) : result (list string * list string) :=
  resolve_segments finder python_path (PyStr.split "."%char name).

(** The finder's answers along a dotted name whose segments but the last
    are packages and whose last is a module: the package directories met
    and the module's file. *)
Inductive package_chain (finder : Finder)
  : list string → list string → list string → string → Prop :=
  | chain_module (search_path : list string) (seg file : string) :
      finder seg search_path = Ok (file, PY_SOURCE) →
      package_chain finder search_path [seg] [] file
  | chain_package (search_path : list string) (seg dir : string)
      (rest dirs : list string) (file : string) :
      finder seg search_path = Ok (dir, PKG_DIRECTORY) →
      package_chain finder [dir] rest dirs file →
      package_chain finder search_path (seg :: rest) (dir :: dirs) file.

End Resolver.

(** ** The fixtures of the unit tests *)

Module Fixtures.

(** The tree [WorkspaceTest.setUp] builds, with the hidden directory of
    [test_hidden_dirs] and the hidden file of [test_hidden_file]. *)
Definition test_tree : Workspace.fsnode :=
  Workspace.FDir "tmp"
    [ Workspace.FFile "foo";
      Workspace.FDir "dir1" [Workspace.FFile "file1"];
      Workspace.FDir "dir2" [Workspace.FFile "file1"];
      Workspace.FDir ".hidden" [Workspace.FFile "not_hidden"];
      Workspace.FFile ".hidden_file" ].

(** The same after [test_update] has added and removed a file. *)
Definition updated_tree : Workspace.fsnode :=
  Workspace.FDir "tmp"
    [ Workspace.FFile "foo";
      Workspace.FDir "dir1" [Workspace.FFile "file1"; Workspace.FFile "file2"];
      Workspace.FDir "dir2" [] ].

(** Listeners over a counter: one that counts its calls, one that raises. *)
Definition counting : Workspace.Listener (W:=nat) :=
  λ _ _ n, (S n, None).


Definition test_workspace (excluded : option (list string))
    (listeners : list (Workspace.Listener (W:=nat))) : Workspace.t (W:=nat) :=
  Workspace.mk "/tmp/.workspace" ∅ listeners
    (Workspace.mkConfig None excluded None None).

(** A stand-in for [json.dumps] that shows the root directory only. *)
Definition show_config : Workspace.Config → string :=
  λ c, "root_dir=" +:+ default ""%string (Workspace.cfg_root_dir c).

(** Devices: one that takes every text, one that is full. *)
Definition disk : string → string → Workspace.written := λ _ _, Workspace.Whole.

Definition disk_full : string → string → Workspace.written :=
  λ _ _, Workspace.Failed 0 "No space left on device".

(** File systems: the workspace directory missing, present, and present
    with a directory where the config file would go. *)
Definition fs_no_workspace : gmap string Workspace.fsobj :=
  {[ "/tmp"%string := Workspace.FsDir ]}.

Definition fs_workspace : gmap string Workspace.fsobj :=
  <[ "/tmp/.workspace"%string := Workspace.FsDir ]> fs_no_workspace.

Definition fs_config_is_dir : gmap string Workspace.fsobj :=
  <[ "/tmp/.workspace/config"%string := Workspace.FsDir ]> fs_workspace.

(** The module table of [PyFileTest.setUp], as a finder. *)
Definition test_finder : Resolver.Finder :=
  λ name search_path,
    if String.eqb name "root" && bool_decide (search_path = [])
    then Ok ("/root/"%string, Resolver.PKG_DIRECTORY)
    else if String.eqb name "pkg" && bool_decide (search_path = ["/root/"%string])
    then Ok ("/root/pkg/"%string, Resolver.PKG_DIRECTORY)
    else if String.eqb name "mod" && bool_decide (search_path = ["/root/pkg/"%string])
    then Ok ("/root/pkg/mod.py"%string, Resolver.PY_SOURCE)
    else Raise (ImportError ("No module named " +:+ name)).

(** The sources the tests of [PyFileTest] write, with the trees
    [ast.parse] gives for them; anything else is a syntax error. *)
Definition test_parse (text : string) : result PyFile.ast :=
  if String.eqb text "" then Ok (PyFile.Node [])
  else if String.eqb text "import root.pkg.mod"
  then Ok (PyFile.Node [PyFile.Import ["root.pkg.mod"%string]])
  else if String.eqb text "from root.pkg import Classy"
  then Ok (PyFile.Node [PyFile.ImportFrom "root.pkg" ["Classy"%string]])
  else if String.eqb text "from root.pkg import mod"
  then Ok (PyFile.Node [PyFile.ImportFrom "root.pkg" ["mod"%string]])
  else Raise (SyntaxError "invalid syntax").

(** A file system with one text in every file. *)
Definition read_const (text : string) : string → result string :=
  λ _, Ok text.

(** The vertex of [src.py] before it is loaded. *)
Definition src_py : PyFile.t := PyFile.mk (Path.mk "/tmp/src.py" "/tmp") ∅ ∅ ∅.

(** Loading [src.py] with the given text, as the tests do. *)
Definition load_src (text : string) : result (PyFile.t * list log_record) :=
  PyFile.new PosixPath.normpath (read_const text) test_parse
    Resolver.resolve_import (Path.mk "/tmp/src.py" "/tmp")
    (test_workspace None []) test_finder false.

(** A graph of two tracked files: [a.py], which imports [b.py] and a
    file [c.py] that is not tracked, and [b.py]. *)
Definition path_a : Path := Path.mk "/tmp/a.py" "/tmp".
Definition path_b : Path := Path.mk "/tmp/b.py" "/tmp".
Definition path_c : Path := Path.mk "/usr/lib/c.py" "/tmp".

Definition test_store : gmap vid PyFile.t :=
  {[ 0 := PyFile.mk path_a {[path_b; path_c]} ∅ ∅;
     1 := PyFile.mk path_b ∅ ∅ ∅ ]}.

Definition test_find_file (p : Path) : option vid :=
  if decide (p = path_a) then Some 0
  else if decide (p = path_b) then Some 1
  else None.

End Fixtures.

(** ** [workspace/path.py]: the comparisons of [Path] *)

Module PathCmp.

(** [isinstance(other, Path) and (self.abs, self.ws_root) ==
    (other.abs, other.ws_root)], for [other] a [Path]. *)
Definition __eq__ (self other : Path) : bool :=
  String.eqb (Path.abs self) (Path.abs other)
  && String.eqb (Path.ws_root self) (Path.ws_root other).

(** [self.abs >= other.abs] and [self.abs > other.abs]: the order of
    [str], character by character. *)
Definition __ge__ (self other : Path) : bool :=
  String.leb (Path.abs other) (Path.abs self).

Definition __gt__ (self other : Path) : bool :=
  String.ltb (Path.abs other) (Path.abs self).

Definition __ne__ (self other : Path) : bool := negb (__eq__ self other).

Definition __le__ (self other : Path) : bool := negb (__gt__ self other).

Definition __lt__ (self other : Path) : bool := negb (__ge__ self other).

End PathCmp.

(** ** [workspace/workspace.py]: the constructor and the editor options *)

Module WorkspaceInit.

(** [os.path.exists(p)]. *)
Definition exists_ (fs : gmap string Workspace.fsobj) (p : string) : bool :=
  bool_decide (is_Some (fs !! p)).

(** [open(p).read()]: the content of a file, an [IOError] for a
    directory or for nothing. *)
Definition read_file (fs : gmap string Workspace.fsobj) (p : string)
  : result string :=
  match fs !! p with
  | Some (Workspace.FsFile content) => Ok content
  | Some Workspace.FsDir => Raise (IOError "Is a directory")
  | None => Raise (IOError "No such file or directory")
  end.

Section Init.
Context {W : Type}.
Variable realpath : string → string.
Variable cwd : string.
(** [json.loads], which raises a [ValueError] for a text that is not
    JSON. *)
Variable json_loads : string → result Workspace.Config.
(** The directory tree [os.walk] finds at a path. *)
Variable tree_at : string → Workspace.fsnode.

(** [_load_config]: the [try] covers the read and [json.loads]; only an
    [IOError] is caught, and it is logged when there is something at the
    path of the config file.  (The message says "write"; it is the
    code's.) *)
Definition _load_config (self : Workspace.t (W:=W))
    (fs : gmap string Workspace.fsobj)
  : result (Workspace.t (W:=W) * list log_record) :=
  let config_path := PosixPath.join (Workspace.workspace_dir self) "config" in
  match text ← read_file fs config_path; json_loads text with
  | Ok c => Ok (Workspace.with_config self c, [])
  | Raise (IOError e) =>
      if exists_ fs config_path
      then Ok (self, [LogRecord ERROR (FailedToWrite config_path e)])
      else Ok (self, [])
  | Raise e => Raise e
  end.

(** [Workspace(workspace_dir, must_exist)]. *)
Definition __init__ (workspace_dir : string) (must_exist : bool)
    (fs : gmap string Workspace.fsobj) (w : W)
  : result (Workspace.t (W:=W) * list log_record) :=
  let self :=
    Workspace.mk (PosixPath.abspath cwd workspace_dir) ∅ [] Workspace.empty_config in
  if must_exist && negb (Workspace.isdir fs (Workspace.workspace_dir self))
  then Raise (OtherError ("No workspace dir: " +:+ Workspace.workspace_dir self))
  else
    '(self1, logs1) ← _load_config self fs;
    let out :=
      Workspace.reload_file_list realpath self1
        (tree_at (Workspace.root_dir self1)) w in
    match Workspace.raised out with
    | Some e => Raise e
    | None => Ok (Workspace.ws_after out, logs1 ++ Workspace.logged out)
    end.

End Init.

(** The values of the editor options. *)
Inductive optval : Type :=
  | OBool (b : bool)
  | OInt (n : Z)
  | OStr (s : string).

#[global] Instance optval_eq_dec : EqDecision optval.
Proof. solve_decision. Defined.

(** The defaults [editor_options] starts from. *)
Definition default_editor_options : gmap string optval :=
  list_to_map
    [ ("style"%string, OStr "solarized-light");
      ("auto-indent"%string, OBool true);
      ("indent-width"%string, OInt 4);
      ("tab-width"%string, OInt 4);
      ("insert-spaces-instead-of-tabs"%string, OBool true);
      ("highlight-current-line"%string, OBool true);
      ("show-right-margin"%string, OBool true);
      ("right-margin-position"%string, OInt 80);
      ("show-line-numbers"%string, OBool true);
      ("smart-backspace"%string, OBool true) ].

(** [editor_options], given what the config holds under the key
    [editor_options] ([None] without the key): [res.update(...)] lets
    the config's entries replace the defaults and adds its other keys. *)
Definition editor_options (configured : option (gmap string optval))
  : gmap string optval :=
  default ∅ configured ∪ default_editor_options.

End WorkspaceInit.

(** ** [graph/py_file.py]: [new_file] *)

Module NewFile.

(** [s.endswith(suffix)]. *)
Definition endswith (s suffix : string) : bool :=
  (PyStr.len suffix <=? PyStr.len s)
  && String.eqb (PyStr.drop (PyStr.len s - PyStr.len suffix) s) suffix.

(** What [new_file] logs: its own record of level [DEBUG], and the
    records of the load it starts. *)
Inductive file_log : Type :=
  | UnrecognizedFileType (p : Path)
  | Loading (r : log_record).

Section NewFile.
Context {W Finder Parent : Type}.
Variable realpath : string → string.
Variable read_file : string → result string.
Variable parse : string → result PyFile.ast.
Variable resolve_import :
  string → Finder → list string → result (Parent * list string).
(** [os.path.isfile] and the default finder, [imp.find_module]. *)
Variable isfile : string → bool.
Variable find_module : Finder.

(** [new_file(path, workspace, external)]: the vertex for a path, if
    one is made, and what is logged. *)
Definition new_file (p : Path) (workspace : Workspace.t (W:=W)) (external : bool)
  : result (option PyFile.t * list file_log) :=
  if negb (isfile (Path.abs p)) then Ok (None, [])
  else if endswith (Path.abs p) ".py" then
    match PyFile.new realpath read_file parse resolve_import
            p workspace find_module external with
    | Ok (f, logs) => Ok (Some f, Loading <$> logs)
    | Raise e => Raise e
    end
  else if endswith (Path.abs p) ".pyc" then Ok (None, [])
  else Ok (None, [UnrecognizedFileType p]).

End NewFile.

End NewFile.

(** ** More fixtures of the unit tests *)

Module InitFixtures.

(** The config texts of [test_exclude_files] and
    [test_init_remote_workspace], written without their quotation marks,
    with what [json.loads] makes of them; any other text is not JSON. *)
Definition test_json_loads (text : string) : result Workspace.Config :=
  if String.eqb text "{exclude_files: [dir2]}"
  then Ok (Workspace.mkConfig None (Some ["dir2"%string]) None None)
  else if String.eqb text "{root_dir: /tmp}"
  then Ok (Workspace.mkConfig (Some "/tmp"%string) None None None)
  else Raise ValueError.

(** Every directory asked for holds the tree of the tests. *)
Definition test_tree_at : string → Workspace.fsnode := λ _, Fixtures.test_tree.

Definition fs_exclude : gmap string Workspace.fsobj :=
  <[ "/tmp/.workspace/config"%string
     := Workspace.FsFile "{exclude_files: [dir2]}" ]> Fixtures.fs_workspace.

Definition fs_not_json : gmap string Workspace.fsobj :=
  <[ "/tmp/.workspace/config"%string := Workspace.FsFile "not json" ]>
    Fixtures.fs_workspace.

Definition init (dir : string) (must_exist : bool)
    (fs : gmap string Workspace.fsobj)
  : result (Workspace.t (W:=nat) * list log_record) :=
  WorkspaceInit.__init__ PosixPath.normpath "/" test_json_loads test_tree_at
    dir must_exist fs 0.

End InitFixtures.

(** ** The edges of a linked graph *)

Module Linked.

(** Every edge a vertex holds is held at both of its ends and only
    there: an outgoing edge starts at the vertex that holds it and is in
    the incoming set of the vertex it ends at, and the other way round. *)
Definition well_linked (σ : gmap vid PyFile.t) : Prop :=
  ∀ v g e, σ !! v = Some g →
    (e ∈ PyFile.outgoing g →
     source e = v ∧ ∃ g', σ !! dest e = Some g' ∧ e ∈ PyFile.incoming g')
    ∧ (e ∈ PyFile.incoming g →
       dest e = v ∧ ∃ g', σ !! source e = Some g' ∧ e ∈ PyFile.outgoing g').

End Linked.

(** ** A tree with symbolic links *)

Module LinkFixtures.

(** The tree of the tests with a repository directory and three
    symbolic links with plain names: [link] to the hidden directory
    [.git], [also2] to the directory [dir2], [vis] to the file
    [.hidden/not_hidden]. *)
Definition link_tree : Workspace.fsnode :=
  Workspace.FDir "tmp"
    [ Workspace.FFile "foo";
      Workspace.FDir ".git" [Workspace.FFile "HEAD"];
      Workspace.FDir "dir2" [Workspace.FFile "file1"];
      Workspace.FDir ".hidden" [Workspace.FFile "not_hidden"];
      Workspace.FDirStub "link";
      Workspace.FDirStub "also2";
      Workspace.FFile "vis" ].

(** [os.path.realpath] in that tree. *)
Definition realpath_links (p : string) : string :=
  if String.eqb p "/tmp/link" then "/tmp/.git"
  else if String.eqb p "/tmp/also2" then "/tmp/dir2"
  else if String.eqb p "/tmp/vis" then "/tmp/.hidden/not_hidden"
  else PosixPath.normpath p.

End LinkFixtures.

(** * Part II: the properties *)

(** Closed decidable goals, sets and maps among them, are settled by
    running the decision procedure. *)
Ltac by_running := refine (bool_decide_unpack _ _); vm_compute; exact I.

(** ** Strings *)

Section StringFacts.
Import PyStr.

Lemma app_cons (c : ascii) (a b : string) :
  String c a +:+ b = String c (a +:+ b).
Proof. reflexivity. Qed.

Lemma app_nil (b : string) : EmptyString +:+ b = b.
Proof. reflexivity. Qed.

Lemma len_app (a b : string) : len (a +:+ b) = len a + len b.
Proof.
  induction a as [|c a IH]; [done|].
  rewrite app_cons. simpl. by rewrite IH.
Qed.

Lemma len_take (n : nat) (s : string) : len (take n s) = n `min` len s.
Proof.
  revert s; induction n as [|n IH]; intros [|c s]; simpl; try done.
  by rewrite <- IH.
Qed.

Lemma len_drop (n : nat) (s : string) : len (drop n s) = len s - n.
Proof.
  revert s; induction n as [|n IH]; intros [|c s]; simpl; auto.
Qed.

Lemma take_drop (n : nat) (s : string) : take n s +:+ drop n s = s.
Proof.
  revert s; induction n as [|n IH]; intros [|c s]; simpl; try done.
  rewrite app_cons. f_equal. apply IH.
Qed.

Lemma len_last_chars (n : nat) (s : string) :
  0 < n → len (last_chars n s) = n `min` len s.
Proof.
  intros Hn. destruct n as [|n]; [lia|].
  unfold last_chars. rewrite len_drop. lia.
Qed.

Lemma rfind1_le (c : ascii) (s : string) : rfind1 c s ≤ len s.
Proof.
  induction s as [|a s IH]; simpl; [done|].
  destruct (rfind1 c s); [destruct (Ascii.eqb a c)|]; lia.
Qed.

Lemma mem_char_take (c : ascii) (n : nat) (s : string) :
  mem_char c s = false → mem_char c (take n s) = false.
Proof.
  revert s; induction n as [|n IH]; intros [|a s]; simpl; try done.
  intros [? ?]%orb_false_elim. rewrite IH; [|done]. by rewrite orb_false_r.
Qed.

Lemma mem_char_drop (c : ascii) (n : nat) (s : string) :
  mem_char c s = false → mem_char c (drop n s) = false.
Proof.
  revert s; induction n as [|n IH]; intros [|a s]; simpl; try done.
  intros [? ?]%orb_false_elim. by apply IH.
Qed.

Lemma mem_char_last_chars (c : ascii) (n : nat) (s : string) :
  mem_char c s = false → mem_char c (last_chars n s) = false.
Proof. destruct n; simpl; [done|]. apply mem_char_drop. Qed.

Lemma prefix_cons (a b : ascii) (s1 s2 : string) :
  String.prefix (String a s1) (String b s2) = Ascii.eqb a b && String.prefix s1 s2.
Proof.
  change (String.prefix (String a s1) (String b s2))
    with (match ascii_dec a b with
          | left _ => String.prefix s1 s2
          | right _ => false
          end).
  destruct (ascii_dec a b) as [->|Hne].
  - by rewrite Ascii.eqb_refl.
  - apply Ascii.eqb_neq in Hne. by rewrite Hne.
Qed.

Lemma count_cons (pat : string) (a : ascii) (s : string) :
  count pat (String a s)
  = (if String.prefix pat (String a s) then 1 else 0) + count pat s.
Proof. reflexivity. Qed.

Lemma eqb_dot_sym (a : ascii) : Ascii.eqb "." a = Ascii.eqb a ".".
Proof. apply Ascii.eqb_sym. Qed.

(** A text without a dot has no [..] in it. *)
Lemma count_dots_none (s : string) :
  mem_char "."%char s = false → count ".." s = 0.
Proof.
  induction s as [|a s IH]; [done|].
  intros [Ha Hs]%orb_false_elim.
  rewrite count_cons, (IH Hs), prefix_cons, (eqb_dot_sym a), Ha. done.
Qed.

(** The marker put between two texts is found where it was put. *)
Lemma count_dots_ge (p s : string) : 1 ≤ count ".." (p +:+ ".." +:+ s).
Proof.
  induction p as [|a p IH].
  - rewrite app_nil, app_cons, count_cons, prefix_cons, app_cons, prefix_cons.
    rewrite !Ascii.eqb_refl. destruct s; simpl; lia.
  - rewrite app_cons, count_cons. lia.
Qed.

(** Between two texts without a dot the marker is the only [..]. *)
Lemma count_dots_one (p s : string) :
  mem_char "."%char p = false → mem_char "."%char s = false →
  count ".." (p +:+ ".." +:+ s) = 1.
Proof.
  intros Hp Hs. induction p as [|a p IH].
  - rewrite app_nil, !app_cons, app_nil. cbn [count].
    rewrite (count_dots_none s Hs), !prefix_cons.
    destruct s as [|b s]; [reflexivity|].
    simpl in Hs. apply orb_false_elim in Hs as [Hb _].
    rewrite prefix_cons, (eqb_dot_sym b), Hb, !Ascii.eqb_refl. reflexivity.
  - simpl in Hp. apply orb_false_elim in Hp as [Ha Hp].
    rewrite app_cons. cbn [count].
    rewrite (IH Hp), prefix_cons, (eqb_dot_sym a), Ha.
    reflexivity.
Qed.

End StringFacts.

(** ** [Path] *)

Section PathProps.
Import PyStr.
Variable cwd : string.

Lemma two_thirds_bounds (max_len : Z) :
  (16 ≤ max_len)%Z →
  (10 ≤ Path.two_thirds max_len)%Z
  ∧ (0 ≤ max_len - Path.two_thirds max_len - 2)%Z.
Proof.
  intros H. unfold Path.two_thirds.
  pose proof (Z.div_mod (max_len * 2) 3 ltac:(lia)) as Hd.
  pose proof (Z.mod_pos_bound (max_len * 2) 3 ltac:(lia)) as Hm.
  lia.
Qed.

Lemma len_basename_le (s : string) : len (PosixPath.basename s) ≤ len s.
Proof. unfold PosixPath.basename. rewrite len_drop. lia. Qed.

(** The relative form exists for every path but the empty text, which
    [realpath] never returns. *)
Lemma rel_defined (self : Path) :
  Path.abs self ≠ EmptyString → ∃ r, Path.rel cwd self = Ok r.
Proof.
  intros Hne. unfold Path.rel, PosixPath.relpath.
  destruct (String.eqb_spec (Path.abs self) EmptyString) as [?|_]; [done|].
  destruct (_ ++ _); by eexists.
Qed.

(** C7, as the code has it.  For [max_len >= 16] and a path whose
    relative form exists, [abbreviate] returns the shorter of the
    relative and the absolute text unchanged when it fits; otherwise it
    returns the first [prefix_count] characters, the marker [..] and the
    last [suffix_count] characters, where [suffix_count] is
    [floor (2 * max_len / 3)], or the length of the basename when
    [require_basename] is set and the basename is longer, and
    [prefix_count] is what is left of [max_len], not below zero.  The
    result is [max_len] long, or two more than the basename when the
    forced basename does not leave room.  It holds the marker at least
    once, and exactly once when the text itself has no dot. *)
Theorem abbreviate_elides (self : Path) (max_len : Z) (require_basename : bool)
    (r : string) :
  (16 ≤ max_len)%Z →
  Path.rel cwd self = Ok r →
  let res := if len r <? len (Path.abs self) then r else Path.abs self in
  let base := len (PosixPath.basename res) in
  let forced := require_basename && (Path.two_thirds max_len <? Z.of_nat base)%Z in
  let suffix_count := if forced then base else Z.to_nat (Path.two_thirds max_len) in
  let prefix_count := Z.to_nat (max_len - Z.of_nat suffix_count - 2) in
  Path.shortest cwd self = Ok res
  ∧ ((Z.of_nat (len res) ≤ max_len)%Z →
     Path.abbreviate cwd self max_len require_basename = Ok res)
  ∧ ((max_len < Z.of_nat (len res))%Z →
     ∃ out,
       Path.abbreviate cwd self max_len require_basename = Ok out
       ∧ out = take prefix_count res +:+ ".." +:+ drop (len res - suffix_count) res
       ∧ len (take prefix_count res) = prefix_count
       ∧ len (drop (len res - suffix_count) res) = suffix_count
       ∧ (forced = false → Z.of_nat (len out) = max_len)
       ∧ (forced = true →
          Z.of_nat (len out) = Z.max max_len (Z.of_nat base + 2))
       ∧ 1 ≤ count ".." out
       ∧ (mem_char "."%char res = false → count ".." out = 1)).
Proof.
  intros Hmax Hrel res base forced suffix_count prefix_count.
  destruct (two_thirds_bounds max_len Hmax) as [Hs10 Hp0].
  assert (Hshort : Path.shortest cwd self = Ok res).
  { unfold Path.shortest. rewrite Hrel. reflexivity. }
  assert (Hbase : base ≤ len res) by apply len_basename_le.
  split; [exact Hshort|]. split.
  - intros Hfit. unfold Path.abbreviate.
    destruct (Z.ltb_spec max_len 16); [lia|].
    rewrite Hshort. simpl.
    destruct (Z.leb_spec (Z.of_nat (len res)) max_len); [done|lia].
  - intros Hlong.
    assert (Hsc : 0 < suffix_count ∧ suffix_count ≤ len res).
    { unfold suffix_count, forced.
      destruct require_basename; simpl;
        [destruct (Z.ltb_spec (Path.two_thirds max_len) (Z.of_nat base))|]; lia. }
    assert (Hpc : prefix_count ≤ len res) by (unfold prefix_count; lia).
    assert (Hlast : last_chars suffix_count res = drop (len res - suffix_count) res).
    { unfold last_chars. destruct suffix_count; [lia|done]. }
    eexists. split.
    { unfold Path.abbreviate.
      destruct (Z.ltb_spec max_len 16); [lia|].
      rewrite Hshort. simpl.
      destruct (Z.leb_spec (Z.of_nat (len res)) max_len); [lia|].
      f_equal. }
    fold base.
    assert (Hsuf :
      Z.to_nat (if require_basename
                then if (Path.two_thirds max_len <? Z.of_nat base)%Z
                     then Z.of_nat base else Path.two_thirds max_len
                else Path.two_thirds max_len) = suffix_count).
    { unfold suffix_count, forced.
      destruct require_basename; simpl;
        [destruct (Z.ltb_spec (Path.two_thirds max_len) (Z.of_nat base))|]; lia. }
    assert (Hpre :
      Z.to_nat (if (max_len - (if require_basename
                then if (Path.two_thirds max_len <? Z.of_nat base)%Z
                     then Z.of_nat base else Path.two_thirds max_len
                else Path.two_thirds max_len) - 2 <? 0)%Z then 0%Z
                else (max_len - (if require_basename
                then if (Path.two_thirds max_len <? Z.of_nat base)%Z
                     then Z.of_nat base else Path.two_thirds max_len
                else Path.two_thirds max_len) - 2)%Z) = prefix_count).
    { unfold prefix_count, suffix_count, forced.
      destruct require_basename; simpl;
        [destruct (Z.ltb_spec (Path.two_thirds max_len) (Z.of_nat base))|];
        match goal with |- context [(?x <? 0)%Z] => destruct (Z.ltb_spec x 0) end;
        lia. }
    rewrite Hsuf, Hpre, Hlast.
    assert (Hlt : len (take prefix_count res) = prefix_count)
      by (rewrite len_take; lia).
    assert (Hld : len (drop (len res - suffix_count) res) = suffix_count)
      by (rewrite len_drop; lia).
    split; [reflexivity|]. split; [exact Hlt|]. split; [exact Hld|].
    split; [|split; [|split]].
    + intros Hf. rewrite !len_app, Hlt, Hld. simpl.
      unfold prefix_count, suffix_count. rewrite Hf.
      unfold forced in Hf. lia.
    + intros Hf. rewrite !len_app, Hlt, Hld. simpl.
      unfold prefix_count, suffix_count. rewrite Hf. lia.
    + apply count_dots_ge.
    + intros Hdot. apply count_dots_one.
      * by apply mem_char_take.
      * by apply mem_char_drop.
Qed.

End PathProps.

(** The cases of [PathTest]. *)
Example test_abbrev_rel_shorter :
  Path.abbreviate "/" (Path.new PosixPath.normpath "/foo/bar" "/foo") 32 true
  = Ok "bar"%string.
Proof. reflexivity. Qed.

Example test_abbrev_abs_shorter :
  Path.abbreviate "/" (Path.new PosixPath.normpath "/foo/bar" "/baz") 32 true
  = Ok "/foo/bar"%string.
Proof. reflexivity. Qed.

Example test_abbrev_shortest :
  Path.abbreviate "/home/u"
    (Path.new PosixPath.normpath
       "/this/isareally/very/annoyingly/perversely/even/path" "foo") 16 true
  = Ok "/thi../even/path"%string.
Proof. reflexivity. Qed.

Example test_abbrev_require_long_basename :
  Path.abbreviate "/"
    (Path.new PosixPath.normpath "/foo/this_is_a_very_long_basename" "/bar") 16 true
  = Ok "..this_is_a_very_long_basename"%string.
Proof. reflexivity. Qed.

(** [abbreviate_elides] at the path of [test_abbrev_shortest]. *)
Lemma abbreviate_elides_witness :
  (16 ≤ 16)%Z
  ∧ Path.rel "/home/u"
      (Path.mk "/this/isareally/very/annoyingly/perversely/even/path" "foo")
    = Ok "../../../this/isareally/very/annoyingly/perversely/even/path"%string
  ∧ ∃ out,
      Path.abbreviate "/home/u"
        (Path.mk "/this/isareally/very/annoyingly/perversely/even/path" "foo")
        16 true = Ok out
      ∧ PyStr.count ".." out = 1.
Proof.
  split; [lia|]. split; [reflexivity|].
  destruct (abbreviate_elides "/home/u"
              (Path.mk "/this/isareally/very/annoyingly/perversely/even/path" "foo")
              16 true
              "../../../this/isareally/very/annoyingly/perversely/even/path"
              ltac:(lia) eq_refl) as (_ & _ & H).
  destruct (H ltac:(vm_compute; reflexivity))
    as (out & Hout & _ & _ & _ & _ & _ & _ & Hone).
  exists out. split; [exact Hout|]. apply Hone. reflexivity.
Defined.

(** C7 as written fails: the text kept before the marker may itself
    begin with [..].  The path lies beside the workspace root, its
    relative form is the shorter one, and the result holds [..] twice. *)
Lemma abbreviate_two_markers :
  let self :=
    Path.new PosixPath.normpath "/a/b/cccccccccccc/dddddddddddd/eeee" "/a/b/x" in
  (16 ≤ 16)%Z
  ∧ Path.shortest "/" self = Ok "../cccccccccccc/dddddddddddd/eeee"%string
  ∧ (16 < Z.of_nat (PyStr.len "../cccccccccccc/dddddddddddd/eeee"))%Z
  ∧ Path.abbreviate "/" self 16 true = Ok "../c..ddddd/eeee"%string
  ∧ PyStr.count ".." "../c..ddddd/eeee" = 2
  ∧ PyStr.count ".." "../c..ddddd/eeee" ≠ 1.
Proof.
  cbv zeta. split; [lia|]. split; [reflexivity|]. split; [reflexivity|].
  split; [reflexivity|]. split; [reflexivity|]. discriminate.
Qed.

(** C9: [in_workspace] compares texts, so a directory beside the root
    whose name starts with the root's name counts as inside it, while it
    does not lie under the root. *)
Theorem in_workspace_sibling_prefix :
  let p := Path.new PosixPath.normpath "/foo/barbaz/x" "/foo/bar" in
  Path.abs p = "/foo/barbaz/x"%string
  ∧ Path.in_workspace p = true
  ∧ Path.lies_under (Path.abs p) (Path.ws_root p) = false.
Proof. cbv zeta. repeat split; reflexivity. Qed.

(** Where the path does lie under the root the two agree. *)
Example in_workspace_inside :
  let p := Path.new PosixPath.normpath "bar/x.py" "/foo" in
  Path.abs p = "/foo/bar/x.py"%string
  ∧ Path.in_workspace p = true
  ∧ Path.lies_under (Path.abs p) (Path.ws_root p) = true.
Proof. cbv zeta. repeat split; reflexivity. Qed.

(** ** [Workspace]: the walk *)

Section WalkProps.
Import Workspace.
Variable exclude_files : list string.

Local Abbreviation kept := (λ name : string, skipped exclude_files name = false).

Lemma fsnode_forall_ind (P : fsnode → Prop) :
  (∀ name, P (FFile name)) →
  (∀ name children, Forall P children → P (FDir name children)) →
  (∀ name, P (FDirStub name)) →
  ∀ n, P n.
Proof.
  intros Hfile Hdir Hstub. fix IH 1. intros [name|name children|name].
  - apply Hfile.
  - apply Hdir. induction children as [|c children IHc]; constructor.
    + apply IH.
    + exact IHc.
  - apply Hstub.
Qed.

Lemma list_remove_middle (x : string) (l r : list string) :
  x ∉ l → list_remove x (l ++ x :: r) = l ++ r.
Proof.
  induction l as [|y l IH]; simpl.
  - intros _. by rewrite String.eqb_refl.
  - intros Hnot. apply not_elem_of_cons in Hnot as [Hne Hnot].
    destruct (String.eqb_spec y x) as [->|_]; [done|].
    by rewrite IH.
Qed.

Lemma prune_loop (done_names todo : list string) :
  foldl (λ ds name, if skipped exclude_files name then list_remove name ds else ds)
        (filter kept done_names ++ todo) todo
  = filter kept (done_names ++ todo).
Proof.
  revert done_names. induction todo as [|name todo IH]; intros done_names.
  - by rewrite !app_nil_r.
  - simpl. specialize (IH (done_names ++ [name])).
    rewrite <- (assoc_L (++)) in IH. simpl in IH. rewrite <- IH.
    rewrite filter_app, filter_cons, filter_nil.
    destruct (skipped exclude_files name) eqn:Hs.
    + rewrite decide_False by (intros ?; congruence).
      rewrite app_nil_r. f_equal.
      apply list_remove_middle.
      intros [Hk _]%list_elem_of_filter. congruence.
    + rewrite decide_True by done.
      by rewrite <- (assoc_L (++)).
Qed.

(** The pruning loop, which removes names from the list it received
    while running over a copy, keeps exactly the names that are neither
    hidden nor excluded, in their order. *)
Lemma prune_filter (dirnames : list string) :
  prune exclude_files dirnames = filter kept dirnames.
Proof. apply (prune_loop [] dirnames). Qed.

Lemma elem_of_names (children : list fsnode) (name : string) :
  name ∈ dir_names children ++ file_names children
  ↔ ∃ c, c ∈ children ∧ node_name c = name.
Proof.
  unfold dir_names, file_names.
  rewrite elem_of_app, !list_elem_of_fmap. split.
  - intros [(c & -> & [_ Hc]%list_elem_of_filter)
           |(c & -> & [_ Hc]%list_elem_of_filter)]; eauto.
  - intros (c & Hc & <-).
    destruct (is_dir_entry c) eqn:Hd; [left|right];
      exists c; (split; [done|]); by apply list_elem_of_filter.
Qed.

Lemma elem_of_dir_paths (top : string) (children : list fsnode) (p : string) :
  p ∈ dir_paths exclude_files top
        (prune exclude_files (dir_names children)) (file_names children)
  ↔ ∃ c, c ∈ children ∧ kept (node_name c)
         ∧ p = PosixPath.join top (node_name c).
Proof.
  unfold dir_paths. rewrite prune_filter, list_elem_of_fmap. split.
  - intros (name & -> & [Hk Hin]%list_elem_of_filter).
    assert (name ∈ dir_names children ++ file_names children) as Hn.
    { apply elem_of_app in Hin as [[_ ?]%list_elem_of_filter|?];
        apply elem_of_app; auto. }
    apply elem_of_names in Hn as (c & Hc & <-). eauto.
  - intros (c & Hc & Hk & ->). exists (node_name c). split; [done|].
    apply list_elem_of_filter. split; [done|].
    assert (node_name c ∈ dir_names children ++ file_names children) as Hn
      by (apply elem_of_names; eauto).
    apply elem_of_app in Hn as [?|?]; apply elem_of_app; [left|right; done].
    by apply list_elem_of_filter.
Qed.

Lemma elem_of_walk_dir (top name : string) (children : list fsnode) (p : string) :
  p ∈ walk exclude_files top (FDir name children)
  ↔ (∃ c, c ∈ children ∧ kept (node_name c)
          ∧ p = PosixPath.join top (node_name c))
    ∨ (∃ sub cs, FDir sub cs ∈ children ∧ kept sub
          ∧ p ∈ walk exclude_files (PosixPath.join top sub) (FDir sub cs)).
Proof.
  cbn [walk]. rewrite elem_of_app, elem_of_dir_paths.
  apply or_iff_compat_l.
  rewrite list_elem_of_In, in_flat_map. split.
  - intros (c & Hc%list_elem_of_In & Hp).
    destruct c as [?|sub cs|?]; try (by destruct Hp).
    case_bool_decide as Hsub; [|by destruct Hp].
    rewrite prune_filter in Hsub.
    apply list_elem_of_filter in Hsub as [Hk _].
    exists sub, cs. split; [done|]. split; [done|].
    by apply list_elem_of_In.
  - intros (sub & cs & Hc & Hk & Hp).
    exists (FDir sub cs). split; [by apply list_elem_of_In|].
    rewrite bool_decide_eq_true_2; [by apply list_elem_of_In|].
    rewrite prune_filter. apply list_elem_of_filter. split; [done|].
    unfold dir_names. apply list_elem_of_fmap. exists (FDir sub cs).
    split; [done|]. by apply list_elem_of_filter.
Qed.

(** Every path the walk joins is that of an entry reached through names
    none of which is hidden or excluded. *)
Lemma walk_sound (tree : fsnode) :
  ∀ top p, p ∈ walk exclude_files top tree →
    ∃ comps, entry_at tree comps ∧ Forall kept comps
             ∧ comps ≠ [] ∧ p = PosixPath.join_many top comps.
Proof.
  induction tree as [name|name children IH|name] using fsnode_forall_ind;
    intros top p Hp; try (by apply elem_of_nil in Hp).
  apply elem_of_walk_dir in Hp as [(c & Hc & Hk & ->)|(sub & cs & Hc & Hk & Hp)].
  - exists [node_name c]. split; [by constructor|].
    split; [by repeat constructor|]. done.
  - rewrite Forall_forall in IH.
    destruct (IH _ Hc _ _ Hp) as (comps & He & Hks & _ & ->).
    exists (sub :: comps). split; [by econstructor|].
    split; [by constructor|]. done.
Qed.

(** And every such entry is walked. *)
Lemma walk_complete (tree : fsnode) (comps : list string) :
  entry_at tree comps → Forall kept comps →
  ∀ top, PosixPath.join_many top comps ∈ walk exclude_files top tree.
Proof.
  induction 1 as [n children c Hc|n children name cs comps Hc He IH];
    intros Hk top; apply elem_of_walk_dir.
  - left. exists c. apply Forall_cons in Hk as [Hk _]. done.
  - right. apply Forall_cons in Hk as [Hk Hks].
    exists name, cs. split; [done|]. split; [done|]. by apply IH.
Qed.

End WalkProps.

(** ** [Workspace]: reloading the file list *)

Section ReloadProps.
Import Workspace.
Context {W : Type}.
Variable realpath : string → string.

Implicit Types (self : Workspace.t (W:=W)) (tree : fsnode) (w : W).

Lemma run_listeners_prefix (ls : list (Listener (W:=W))) (idx : nat)
    (removed added : gset Path) w :
  ∃ k, k ≤ length ls
       ∧ (run_listeners ls idx removed added w).1.2 = calls_from idx k removed added
       ∧ ((run_listeners ls idx removed added w).2 = None → k = length ls)
       ∧ (is_Some ((run_listeners ls idx removed added w).2) → 0 < k).
Proof.
  revert idx w. induction ls as [|l ls IH]; intros idx w; simpl.
  - exists 0. split; [done|]. split; [done|]. split; [done|].
    by intros [? ?].
  - destruct (l removed added w) as [w1 [e|]].
    + exists 1. simpl. split; [lia|]. split; [done|]. split; [done|]. lia.
    + destruct (IH (S idx) w1) as (k & Hk & Hc & Hn & _).
      destruct (run_listeners ls (S idx) removed added w1) as [[w2 cs] e].
      simpl in *. exists (S k). split; [lia|]. split; [|split; [|lia]].
      * unfold calls_from in *. simpl. by rewrite Hc.
      * intros He. by rewrite (Hn He).
Qed.


Lemma reload_ws_after self tree w :
  ws_after (reload_file_list realpath self tree w)
  = Workspace.mk (workspace_dir self) (walked_files realpath self tree)
                 (file_listeners self) (config self).
Proof.
  unfold reload_file_list. simpl.
  by destruct (run_listeners _ _ _ _ _) as [[? ?] ?].
Qed.

Lemma reload_calls self tree w :
  let new_files := walked_files realpath self tree in
  calls (reload_file_list realpath self tree w)
  = (run_listeners (file_listeners self) 0
       (files self ∖ new_files) (new_files ∖ files self) w).1.2
  ∧ raised (reload_file_list realpath self tree w)
    = (run_listeners (file_listeners self) 0
         (files self ∖ new_files) (new_files ∖ files self) w).2.
Proof.
  unfold reload_file_list. simpl.
  by destruct (run_listeners _ _ _ _ _) as [[? ?] ?].
Qed.





Lemma isabs_join (a b : string) :
  PosixPath.isabs a = true → PosixPath.isabs (PosixPath.join a b) = true.
Proof.
  unfold PosixPath.isabs, PosixPath.join, PyStr.startswith. intros Ha.
  destruct (String.prefix "/" b) eqn:Hb; [done|].
  destruct a as [|c a]; [done|].
  rewrite prefix_cons in Ha. apply andb_true_iff in Ha as [Hc _].
  destruct (_ || _); rewrite app_cons, prefix_cons, Hc; simpl;
    by destruct (_ +:+ _).
Qed.

Lemma isabs_join_many (a : string) (comps : list string) :
  PosixPath.isabs a = true →
  PosixPath.isabs (PosixPath.join_many a comps) = true.
Proof.
  revert a. induction comps as [|c comps IH]; intros a Ha; [done|].
  simpl. apply IH. by apply isabs_join.
Qed.

(** C6, as the code has it.  After a reload the stored set holds
    exactly the canonical paths of the entries reached from the root
    through names none of which starts with a dot or is in
    [exclude_files]: an entry of such a name is not visited at any
    depth, and nothing below a directory of such a name is.  Where the
    root is absolute and canonicalization leaves the walked paths as
    they are, every stored path is the root followed by such names
    only. *)
Theorem reload_files_kept self tree w :
  let stored := files (ws_after (reload_file_list realpath self tree w)) in
  (∀ p, p ∈ stored
     ↔ ∃ comps,
         entry_at tree comps
         ∧ Forall (λ name, skipped (exclude_files self) name = false) comps
         ∧ p = Path.new realpath
                 (realpath (PosixPath.join_many (root_dir self) comps))
                 (root_dir self))
  ∧ (PosixPath.isabs (root_dir self) = true →
     (∀ x, x ∈ walk (exclude_files self) (root_dir self) tree → realpath x = x) →
     ∀ p, p ∈ stored →
       ∃ comps,
         entry_at tree comps
         ∧ Forall (λ name, skipped (exclude_files self) name = false) comps
         ∧ Path.abs p = PosixPath.join_many (root_dir self) comps
         ∧ Path.ws_root p = root_dir self).
Proof.
  intros stored.
  assert (∀ p, p ∈ stored
     ↔ ∃ comps,
         entry_at tree comps
         ∧ Forall (λ name, skipped (exclude_files self) name = false) comps
         ∧ p = Path.new realpath
                 (realpath (PosixPath.join_many (root_dir self) comps))
                 (root_dir self)) as Hchar.
  { intros p. unfold stored. rewrite reload_ws_after. simpl. unfold walked_files.
    rewrite elem_of_list_to_set, list_elem_of_fmap. split.
    - intros (q & -> & Hq).
      apply walk_sound in Hq as (comps & He & Hk & _ & ->). eauto.
    - intros (comps & He & Hk & ->).
      eexists. split; [reflexivity|]. by apply walk_complete. }
  split; [exact Hchar|].
  intros Habs Hfix p (comps & He & Hk & ->)%Hchar.
  exists comps. split; [done|]. split; [done|]. split; [|done].
  pose proof (walk_complete _ _ _ He Hk (root_dir self)) as Hwalked.
  unfold Path.new. simpl. rewrite !(Hfix _ Hwalked).
  by rewrite isabs_join_many.
Qed.

End ReloadProps.

(** The cases of [WorkspaceTest] that walk the tree. *)
Example test_hidden_dirs :
  Workspace.walk [] "/tmp" Fixtures.test_tree
  = ["/tmp/dir1"; "/tmp/dir2"; "/tmp/foo"; "/tmp/dir1/file1"; "/tmp/dir2/file1"]%string.
Proof. reflexivity. Qed.

Example test_exclude_files :
  Workspace.walk ["dir2"%string] "/tmp" Fixtures.test_tree
  = ["/tmp/dir1"; "/tmp/foo"; "/tmp/dir1/file1"]%string.
Proof. reflexivity. Qed.

(** [test_update]: one listener, called once with the file that went and
    the file that came. *)
Example test_update :
  let w0 := Fixtures.test_workspace None [Fixtures.counting] in
  let w1 := Workspace.ws_after
              (Workspace.reload_file_list PosixPath.normpath w0 Fixtures.test_tree 0) in
  let out := Workspace.reload_file_list PosixPath.normpath w1 Fixtures.updated_tree 0 in
  Workspace.calls out
  = [Workspace.Call 0
       {[Path.mk "/tmp/dir2/file1" "/tmp"]} {[Path.mk "/tmp/dir1/file2" "/tmp"]}]
  ∧ Workspace.client_after out = 1
  ∧ Workspace.raised out = None.
Proof. vm_compute. repeat split; reflexivity. Qed.




(** [reload_files_kept] at the tree of the tests, which has no links:
    the file [dir1/file1] is stored under the root and its own names. *)
Lemma reload_files_kept_witness :
  let self := Fixtures.test_workspace None [] in
  ∃ comps,
    Workspace.entry_at Fixtures.test_tree comps
    ∧ Forall (λ name, Workspace.skipped (Workspace.exclude_files self) name = false)
        comps
    ∧ "/tmp/dir1/file1"%string = PosixPath.join_many (Workspace.root_dir self) comps.
Proof.
  intros self.
  destruct (reload_files_kept PosixPath.normpath self Fixtures.test_tree 0)
    as [_ Hplain].
  destruct (Hplain eq_refl) with (p := Path.mk "/tmp/dir1/file1" "/tmp")
    as (comps & He & Hk & Habs & _).
  - intros x Hx. vm_compute in Hx.
    repeat (apply elem_of_cons in Hx as [->|Hx]; [reflexivity|]).
    by apply elem_of_nil in Hx.
  - by_running.
  - exists comps. split; [exact He|]. split; [exact Hk|exact Habs].
Defined.

(** C6 as written fails where the tree has symbolic links: what is
    stored is the canonical path of a walked entry, and a link with a
    plain name is stored under the path of what it points to.  With
    [dir2] excluded, the set holds the hidden directory [.git], the
    excluded directory [dir2] and a file of the hidden directory
    [.hidden]. *)
Lemma reload_stores_link_target :
  let self := Fixtures.test_workspace (Some ["dir2"%string]) [] in
  let stored :=
    Workspace.files
      (Workspace.ws_after
         (Workspace.reload_file_list LinkFixtures.realpath_links self
            LinkFixtures.link_tree 0)) in
  Workspace.exclude_files self = ["dir2"%string]
  ∧ Path.mk "/tmp/.git" "/tmp" ∈ stored
  ∧ PyStr.startswith (Path.basename (Path.mk "/tmp/.git" "/tmp")) "." = true
  ∧ Path.mk "/tmp/dir2" "/tmp" ∈ stored
  ∧ Path.basename (Path.mk "/tmp/dir2" "/tmp") = "dir2"%string
  ∧ Path.mk "/tmp/.hidden/not_hidden" "/tmp" ∈ stored.
Proof.
  cbv zeta. split; [reflexivity|]. split; [by_running|].
  split; [reflexivity|]. split; [by_running|]. split; [reflexivity|].
  by_running.
Qed.

(** ** [Workspace]: the setters *)

Section ConfigProps.
Import Workspace.
Context {W : Type}.
Variable cwd : string.
Variable json_dumps : Config → string.
Variable device : string → string → written.

Implicit Types (self : Workspace.t (W:=W)) (fs : gmap string fsobj).

Lemma write_config_outcome self fs :
  write_outcome json_dumps device self fs
    (_write_config json_dumps device self fs).1
    (_write_config json_dumps device self fs).2.
Proof.
  unfold write_outcome, _write_config, write_file.
  destruct (isdir fs (workspace_dir self)); simpl; [|done].
  destruct (open_error fs _) as [e|] eqn:Ho; simpl.
  - right. left. by exists e.
  - destruct (device _ _) as [|reached e] eqn:Hd; simpl.
    + by left.
    + right. right. by exists reached, e.
Qed.

(** C8, as the code has it.  Each setter returns with the config in
    memory updated.  Where the workspace directory does not exist the
    file system is left as it is and nothing is logged.  Where it
    exists, one of three things happens: the config file is opened and
    the device takes the text, and the file holds the dumped config; or
    the file cannot be opened, and the file system is left as it is and
    the failure is logged as an error; or the write fails after the
    open, and the file holds what had reached it (the open has emptied
    it) and the failure is logged as an error. *)
Theorem setters_write_config self fs (root : string) (paths : list Path) :
  let c := config self in
  let c_root :=
    mkConfig (Some root) (cfg_exclude_files c) (cfg_python_path c) (cfg_open_files c) in
  (∃ fs' logs,
     set_root_dir json_dumps device self root fs = Ok (with_config self c_root, fs', logs)
     ∧ write_outcome json_dumps device (with_config self c_root) fs fs' logs)
  ∧ (∀ rels, mapM (Path.rel cwd) paths = Ok rels →
     let c_open :=
       mkConfig (cfg_root_dir c) (cfg_exclude_files c) (cfg_python_path c) (Some rels) in
     ∃ fs' logs,
       set_open_files cwd json_dumps device self paths fs
       = Ok (with_config self c_open, fs', logs)
       ∧ write_outcome json_dumps device (with_config self c_open) fs fs' logs).
Proof.
  intros c c_root. split.
  - pose proof (write_config_outcome (with_config self c_root) fs) as Hw.
    unfold set_root_dir. fold c c_root.
    destruct (_write_config json_dumps device (with_config self c_root) fs)
      as [fs' logs]. eauto.
  - intros rels Hrels c_open.
    pose proof (write_config_outcome (with_config self c_open) fs) as Hw.
    unfold set_open_files. rewrite Hrels. simpl. fold c c_open.
    destruct (_write_config json_dumps device (with_config self c_open) fs)
      as [fs' logs]. eauto.
Qed.

End ConfigProps.

(** [test_update_doesnt_create_workspace]: without the directory a
    setter changes the config in memory and leaves the file system. *)
Example test_update_doesnt_create_workspace :
  let self := Fixtures.test_workspace None [] in
  Workspace.set_open_files "/" Fixtures.show_config Fixtures.disk self
    [Path.mk "/tmp/foo" "/tmp"; Path.mk "/tmp/bar" "/tmp"] Fixtures.fs_no_workspace
  = Ok (Workspace.with_config self
          (Workspace.mkConfig None None None (Some ["foo"; "bar"]%string)),
        Fixtures.fs_no_workspace, []).
Proof. reflexivity. Qed.

(** With the directory the config file is written. *)
Example test_update_root_dir_written :
  let self := Fixtures.test_workspace None [] in
  ∃ self' fs',
    Workspace.set_root_dir Fixtures.show_config Fixtures.disk self "/src" Fixtures.fs_workspace
    = Ok (self', fs', [])
    ∧ fs' !! "/tmp/.workspace/config"%string
      = Some (Workspace.FsFile "root_dir=/src").
Proof. cbv zeta. eexists _, _. split; reflexivity. Qed.

(** [setters_write_config] at the two file systems above. *)
Lemma setters_write_config_witness :
  let self := Fixtures.test_workspace None [] in
  ∃ fs' logs,
    Workspace.set_root_dir Fixtures.show_config Fixtures.disk self "/src" Fixtures.fs_workspace
    = Ok (Workspace.with_config self
            (Workspace.mkConfig (Some "/src"%string) None None None), fs', logs)
    ∧ Workspace.write_outcome Fixtures.show_config Fixtures.disk
        (Workspace.with_config self
           (Workspace.mkConfig (Some "/src"%string) None None None))
        Fixtures.fs_workspace fs' logs.
Proof.
  intros self.
  exact (proj1 (setters_write_config "/" Fixtures.show_config Fixtures.disk self
                  Fixtures.fs_workspace "/src" [])).
Defined.

(** A write that fails after the open: the device is full, and the
    config file that was there is left empty. *)
Example setter_write_fails_after_open :
  let self := Fixtures.test_workspace None [] in
  ∃ self' fs',
    Workspace.set_root_dir Fixtures.show_config Fixtures.disk_full self "/src"
      InitFixtures.fs_exclude
    = Ok (self', fs',
          [LogRecord ERROR
             (FailedToWrite "/tmp/.workspace/config" "No space left on device")])
    ∧ InitFixtures.fs_exclude !! "/tmp/.workspace/config"%string
      = Some (Workspace.FsFile "{exclude_files: [dir2]}")
    ∧ fs' !! "/tmp/.workspace/config"%string = Some (Workspace.FsFile "")
    ∧ Workspace.root_dir self' = "/src"%string.
Proof. cbv zeta. eexists _, _. repeat split; reflexivity. Qed.

(** C8 as written fails in its last part: the directory exists, and the
    config is not persisted, because what is at the path of the config
    file is a directory.  The setter logs the error and returns. *)
Lemma setter_write_refused :
  let self := Fixtures.test_workspace None [] in
  let self' := Workspace.with_config self
                 (Workspace.mkConfig (Some "/src"%string) None None None) in
  Workspace.isdir Fixtures.fs_config_is_dir (Workspace.workspace_dir self) = true
  ∧ Workspace.set_root_dir Fixtures.show_config Fixtures.disk self "/src" Fixtures.fs_config_is_dir
    = Ok (self', Fixtures.fs_config_is_dir,
          [LogRecord ERROR
             (FailedToWrite "/tmp/.workspace/config" "Is a directory")])
  ∧ Fixtures.fs_config_is_dir !! "/tmp/.workspace/config"%string
    ≠ Some (Workspace.FsFile (Fixtures.show_config (Workspace.config self'))).
Proof. cbv zeta. split; [reflexivity|]. split; [reflexivity|]. discriminate. Qed.

(** ** [PyFile]: the syntax tree *)

Section AstProps.
Import PyFile.

Lemma ast_size_pos (t : ast) : 0 < ast_size t.
Proof. destruct t; simpl; lia. Qed.

Lemma ast_size_children (t : ast) :
  ast_size t = S (list_sum (ast_size <$> child_nodes t)).
Proof. by destruct t. Qed.

Lemma node_of_inv (n t : ast) :
  node_of n t ↔ n = t ∨ ∃ c, c ∈ child_nodes t ∧ node_of n c.
Proof.
  split.
  - intros H. destruct H as [t|n c cs Hc Hn]; [by left|].
    right. exists c. done.
  - intros [->|(c & Hc & Hn)]; [constructor|].
    destruct t as [?|? ?|cs]; simpl in Hc; try by apply elem_of_nil in Hc.
    by econstructor.
Qed.

(** With fuel for every node waiting in the queue or below it, the loop
    yields exactly the nodes of the trees in the queue. *)
Lemma walk_queue_nodes (fuel : nat) :
  ∀ todo, list_sum (ast_size <$> todo) ≤ fuel →
    ∀ n, n ∈ walk_queue fuel todo ↔ ∃ t, t ∈ todo ∧ node_of n t.
Proof.
  induction fuel as [|fuel IH]; intros todo Hfuel n.
  - destruct todo as [|t todo].
    + simpl. split; [by intros ?%elem_of_nil|by intros (? & ?%elem_of_nil & _)].
    + rewrite fmap_cons in Hfuel. simpl in Hfuel.
      pose proof (ast_size_pos t). lia.
  - destruct todo as [|t todo]; simpl.
    + split; [by intros ?%elem_of_nil|by intros (? & ?%elem_of_nil & _)].
    + rewrite fmap_cons in Hfuel. simpl in Hfuel.
      rewrite (ast_size_children t) in Hfuel.
      rewrite elem_of_cons, IH.
      2:{ rewrite fmap_app, list_sum_app. lia. }
      split.
      * intros [->|(c & Hc & Hn)].
        -- exists t. split; [left|constructor].
        -- apply elem_of_app in Hc as [Hc|Hc].
           ++ exists c. split; [by right|done].
           ++ exists t. split; [left|]. apply node_of_inv. right. eauto.
      * intros (t' & [->|Ht']%elem_of_cons & Hn).
        -- apply node_of_inv in Hn as [->|(c & Hc & Hn)]; [by left|].
           right. exists c. split; [|done]. apply elem_of_app. by right.
        -- right. exists t'. split; [|done]. apply elem_of_app. by left.
Qed.

(** [ast.walk] yields exactly the nodes of the tree. *)
Lemma elem_of_walk (tree n : ast) : n ∈ walk tree ↔ node_of n tree.
Proof.
  unfold walk. rewrite walk_queue_nodes by (simpl; lia). split.
  - by intros (t & ->%list_elem_of_singleton & Hn).
  - intros Hn. exists tree. split; [by apply list_elem_of_singleton|done].
Qed.

Lemma elem_of_parsed_imports (tree : ast) (x : string * bool) :
  x ∈ parsed_imports tree ↔ ∃ n, node_of n tree ∧ x ∈ node_imports n.
Proof.
  unfold parsed_imports. rewrite list_elem_of_In, in_flat_map. split.
  - intros (n & Hn%list_elem_of_In%elem_of_walk & Hx%list_elem_of_In). eauto.
  - intros (n & Hn%elem_of_walk%list_elem_of_In & Hx%list_elem_of_In). eauto.
Qed.

(** Where the two flags come from: [maybe_not_module] is false for the
    names of an [import] and the module of a [from ... import], true
    for [module.name] of a name imported from a module. *)
Lemma elem_of_node_imports (n : ast) (x : string) (flag : bool) :
  (x, flag) ∈ node_imports n ↔
  if flag then
    ∃ module names name,
      n = ImportFrom module names ∧ name ∈ names ∧ x = module +:+ "." +:+ name
  else
    (∃ names, n = Import names ∧ x ∈ names) ∨ (∃ names, n = ImportFrom x names).
Proof.
  destruct n as [names|module names|cs]; simpl.
  - rewrite list_elem_of_fmap. destruct flag; split.
    + by intros (? & [= ] & _).
    + by intros (? & ? & ? & [= ] & _).
    + intros (name & [= ->] & Hin). left. eauto.
    + intros [(names' & [= <-] & Hin)|(? & [= ])]. eauto.
  - rewrite elem_of_cons, list_elem_of_fmap. destruct flag; split.
    + intros [[= ]|(name & [= ->] & Hin)]. eauto 6.
    + intros (m & ns & name & [= <- <-] & Hin & ->). right. eauto.
    + intros [[= ->]|(? & [= ] & _)]. right. eauto.
    + intros [(? & [= ] & _)|(ns & [= <- <-])]. by left.
  - destruct flag; split.
    + by intros ?%elem_of_nil.
    + by intros (? & ? & ? & [= ] & _).
    + by intros ?%elem_of_nil.
    + by intros [(? & [= ] & _)|(? & [= ])].
Qed.

End AstProps.

Example walk_breadth_first :
  PyFile.walk
    (PyFile.Node [PyFile.Node [PyFile.Import ["a"%string]];
                  PyFile.ImportFrom "m" ["x"%string]])
  = [ PyFile.Node [PyFile.Node [PyFile.Import ["a"%string]];
                   PyFile.ImportFrom "m" ["x"%string]];
      PyFile.Node [PyFile.Import ["a"%string]];
      PyFile.ImportFrom "m" ["x"%string];
      PyFile.Import ["a"%string] ].
Proof. reflexivity. Qed.

(** ** [PyFile]: loading *)

Section LoadProps.
Import PyFile.
Context {W Finder Parent : Type}.
Variable realpath : string → string.
Variable read_file : string → result string.
Variable parse : string → result ast.
Variable resolve_import :
  string → Finder → list string → result (Parent * list string).

Implicit Types (self : PyFile.t) (workspace : Workspace.t (W:=W))
  (finder : Finder) (parsed : list (string * bool))
  (acc : gset Path) (logs : list log_record).

Local Abbreviation load_imports := (PyFile.load_imports realpath resolve_import).
Local Abbreviation _load := (PyFile._load realpath read_file parse resolve_import).

(** The record [_load] logs for a name that does not resolve. *)
Local Abbreviation unresolved self name e :=
  (LogRecord INFO (FailedToResolve (path self) name e)).

Lemma load_imports_app self workspace finder parsed1 parsed2 acc logs :
  load_imports self workspace finder (parsed1 ++ parsed2) acc logs
  = '(acc1, logs1) ← load_imports self workspace finder parsed1 acc logs;
    load_imports self workspace finder parsed2 acc1 logs1.
Proof.
  revert acc logs. induction parsed1 as [|[name flag] parsed1 IH];
    intros acc logs; [done|].
  simpl.
  destruct (resolve_import name finder (Workspace.python_path workspace))
    as [[parent paths]|e]; [apply IH|].
  destruct e; first [done | apply IH].
Qed.

(** The loop passes no [ImportError] on: where the resolver raises
    nothing else, the loop returns. *)
Lemma load_imports_returns self workspace finder parsed acc logs :
  (∀ name e, (name, e) ∈ ((λ x, (x.1, resolve_import x.1 finder
                                         (Workspace.python_path workspace)))
                            <$> parsed) →
     ∀ x, e = Raise x → ∃ msg, x = ImportError msg) →
  ∃ r, load_imports self workspace finder parsed acc logs = Ok r.
Proof.
  revert acc logs. induction parsed as [|[name flag] parsed IH];
    intros acc logs Hres; [by eexists|].
  simpl.
  assert (∀ x, resolve_import name finder (Workspace.python_path workspace)
               = Raise x → ∃ msg, x = ImportError msg) as Hname.
  { intros x. apply (Hres name). rewrite fmap_cons. left. }
  assert (∀ acc' logs',
            ∃ r, load_imports self workspace finder parsed acc' logs' = Ok r)
    as Hrest.
  { intros acc' logs'. apply IH. intros n e Hin. apply (Hres n).
    rewrite fmap_cons. by right. }
  destruct (resolve_import name finder (Workspace.python_path workspace))
    as [[parent paths]|x]; [apply Hrest|].
  destruct (Hname x eq_refl) as [msg ->]. apply Hrest.
Qed.

(** C3.  A file that is read and does not parse: the constructor
    returns, with a vertex whose [imports] is empty and one record logged
    at level [INFO]; and [_load] on its own leaves the vertex as it was. *)
Theorem load_syntax_error (p : Path) workspace finder (text e : string) :
  read_file (Path.abs p) = Ok text →
  parse text = Raise (SyntaxError e) →
  PyFile.new realpath read_file parse resolve_import p workspace finder false
  = Ok (PyFile.mk p ∅ ∅ ∅, [LogRecord INFO (CouldntParse p e)])
  ∧ ∀ self, path self = p →
      _load self workspace finder
      = Ok (self, [LogRecord INFO (CouldntParse p e)]).
Proof.
  intros Hread Hparse.
  assert (∀ self, path self = p →
            _load self workspace finder
            = Ok (self, [LogRecord INFO (CouldntParse p e)])) as Hload.
  { intros self <-. unfold PyFile._load. rewrite Hread. simpl.
    by rewrite Hparse. }
  split; [|exact Hload]. unfold PyFile.new. by apply Hload.
Qed.

(** The record logged for an entry of [parsed_imports], if one is. *)
Local Abbreviation failure_record self workspace finder :=
  (λ x : string * bool,
     match resolve_import x.1 finder (Workspace.python_path workspace) with
     | Raise (ImportError e) =>
         if x.2 then None
         else Some (LogRecord INFO (FailedToResolve (path self) x.1 e))
     | _ => None
     end).

Lemma load_imports_result self workspace finder parsed : ∀ acc logs acc' logs',
  load_imports self workspace finder parsed acc logs = Ok (acc', logs') →
  (∀ p, p ∈ acc' ↔
     p ∈ acc
     ∨ ∃ name flag parent paths q,
         (name, flag) ∈ parsed
         ∧ resolve_import name finder (Workspace.python_path workspace)
           = Ok (parent, paths)
         ∧ q ∈ paths
         ∧ p = Path.new realpath (realpath q) (Workspace.root_dir workspace))
  ∧ logs' = logs ++ omap (failure_record self workspace finder) parsed.
Proof.
  induction parsed as [|[name flag] parsed IH]; intros acc logs acc' logs'.
  - simpl. intros [= <- <-]. split; [|by rewrite app_nil_r].
    intros p. split; [by left|].
    intros [?|(? & ? & ? & ? & ? & ?%elem_of_nil & _)]; done.
  - simpl.
    destruct (resolve_import name finder (Workspace.python_path workspace))
      as [[parent paths]|e] eqn:Hres.
    + intros [Hacc Hlogs]%IH. split; [|done].
      intros p. rewrite Hacc, elem_of_union, elem_of_list_to_set, list_elem_of_fmap.
      split.
      * intros [[?|(q & -> & Hq)]|(n & fl & pa & ps & q & Hin & ? & ? & ?)];
          [by left|right|right].
        -- exists name, flag, parent, paths, q. split; [left|done].
        -- exists n, fl, pa, ps, q. split; [by right|done].
      * intros [?|(n & fl & pa & ps & q & Hin & Hn & Hq & ->)]; [by left; left|].
        apply elem_of_cons in Hin as [[= -> ->]|Hin].
        -- left. right. rewrite Hres in Hn. injection Hn as <- <-. eauto.
        -- right. exists n, fl, pa, ps, q. done.
    + destruct e as [| | | |e|]; try done.
      intros [Hacc Hlogs]%IH. split.
      * intros p. rewrite Hacc. apply or_iff_compat_l. split.
        -- intros (n & fl & pa & ps & q & Hin & ? & ? & ?).
           exists n, fl, pa, ps, q. split; [by right|done].
        -- intros (n & fl & pa & ps & q & Hin & Hn & Hq & ->).
           apply elem_of_cons in Hin as [[= -> ->]|Hin]; [congruence|].
           exists n, fl, pa, ps, q. done.
      * rewrite Hlogs. destruct flag; [done|]. by rewrite <- (assoc_L (++)).
Qed.

(** C2.  A name of [parsed_imports] that the resolver refuses with an
    [ImportError].  Its flag tells where it came from: unset for a name
    of an [import] statement or the module of a [from ... import], set
    for [module.name] of an imported name.  The load goes on with the
    names after it, the set of imports built so far untouched by it.
    Where the load returns, the log it returns holds, between the
    records for the names before and the names after, the record for
    this name when the flag is unset and nothing when it is set, and the
    imports are those of the other names: this one adds none.  And the
    load does return, unless the resolver raises something that is no
    [ImportError] for one of the other names. *)
Theorem load_recovers_resolution_failure self workspace finder
    (text : string) (tree : ast) parsed1 parsed2 (name : string) (flag : bool)
    (e : string) :
  read_file (Path.abs (path self)) = Ok text →
  parse text = Ok tree →
  parsed_imports tree = parsed1 ++ (name, flag) :: parsed2 →
  resolve_import name finder (Workspace.python_path workspace)
  = Raise (ImportError e) →
  (∃ n, node_of n tree
        ∧ if flag then
            ∃ module names attr,
              n = ImportFrom module names ∧ attr ∈ names
              ∧ name = module +:+ "." +:+ attr
          else
            (∃ names, n = Import names ∧ name ∈ names)
            ∨ (∃ names, n = ImportFrom name names))
  ∧ _load self workspace finder
    = ('(acc1, logs1) ← load_imports self workspace finder parsed1 ∅ [];
       '(acc2, logs2) ←
         load_imports self workspace finder parsed2 acc1
           (if flag then logs1 else logs1 ++ [unresolved self name e]);
       Ok (PyFile.mk (path self) acc2 (outgoing self) (incoming self), logs2))
  ∧ (∀ f logs, _load self workspace finder = Ok (f, logs) →
       logs = omap (failure_record self workspace finder) parsed1
              ++ (if flag then [] else [unresolved self name e])
              ++ omap (failure_record self workspace finder) parsed2
       ∧ (flag = false → unresolved self name e ∈ logs)
       ∧ ∀ p, p ∈ imports f ↔
           ∃ name' flag' parent paths q,
             (name', flag') ∈ parsed1 ++ parsed2
             ∧ resolve_import name' finder (Workspace.python_path workspace)
               = Ok (parent, paths)
             ∧ q ∈ paths
             ∧ p = Path.new realpath (realpath q) (Workspace.root_dir workspace))
  ∧ ((∀ x err, x ∈ parsed1 ++ parsed2 →
        resolve_import x.1 finder (Workspace.python_path workspace) = Raise err →
        ∃ msg, err = ImportError msg) →
     ∃ f logs, _load self workspace finder = Ok (f, logs)).
Proof.
  intros Hread Hparse Hparsed Hfail.
  assert (Hload : _load self workspace finder
    = '(acc, logs) ←
        load_imports self workspace finder (parsed_imports tree) ∅ [];
      Ok (PyFile.mk (path self) acc (outgoing self) (incoming self), logs)).
  { unfold PyFile._load. rewrite Hread. simpl. by rewrite Hparse. }
  split; [|split; [|split]].
  - assert ((name, flag) ∈ parsed_imports tree) as Hin.
    { rewrite Hparsed. apply elem_of_app. right. left. }
    apply elem_of_parsed_imports in Hin as (n & Hn & Hin).
    exists n. split; [done|]. by apply elem_of_node_imports.
  - rewrite Hload, Hparsed, load_imports_app.
    destruct (load_imports self workspace finder parsed1 ∅ [])
      as [[acc1 logs1]|x]; [|done].
    simpl. rewrite Hfail. done.
  - intros f logs. rewrite Hload.
    destruct (load_imports self workspace finder (parsed_imports tree) ∅ [])
      as [[acc' logs']|x] eqn:Hrun; [|done].
    simpl. intros [= <- <-]. simpl.
    apply load_imports_result in Hrun as [Hacc ->].
    assert (omap (failure_record self workspace finder) (parsed_imports tree)
            = omap (failure_record self workspace finder) parsed1
              ++ (if flag then [] else [unresolved self name e])
              ++ omap (failure_record self workspace finder) parsed2) as Hlogs.
    { rewrite Hparsed, omap_app. f_equal. simpl. rewrite Hfail.
      by destruct flag. }
    split; [by rewrite Hlogs|]. split.
    + intros ->. simpl. rewrite Hlogs. apply elem_of_app. right. left.
    + intros p. rewrite Hacc. split.
      * intros [?%elem_of_empty|(n & fl & pa & ps & q & Hin & Hn & Hq & ->)];
          [done|].
        exists n, fl, pa, ps, q. split; [|done].
        rewrite Hparsed in Hin.
        apply elem_of_app in Hin as [Hin|[[= -> ->]|Hin]%elem_of_cons];
          [apply elem_of_app; by left|congruence|apply elem_of_app; by right].
      * intros (n & fl & pa & ps & q & Hin & Hn & Hq & ->). right.
        exists n, fl, pa, ps, q. split; [|done].
        rewrite Hparsed.
        apply elem_of_app in Hin as [Hin|Hin]; apply elem_of_app;
          [by left|right; by right].
  - intros Hothers. rewrite Hload.
    destruct (load_imports_returns self workspace finder (parsed_imports tree) ∅ [])
      as [[acc logs] ->]; [|by eexists _, _].
    intros n r Hin x ->.
    apply list_elem_of_fmap in Hin as ([n' fl] & [= -> Hr] & Hin). simpl in *.
    rewrite Hparsed in Hin.
    apply elem_of_app in Hin as [Hin|[[= -> ->]|Hin]%elem_of_cons].
    + apply (Hothers (n', fl)); [apply elem_of_app; by left|done].
    + rewrite Hfail in Hr. injection Hr as ->. by eexists.
    + apply (Hothers (n', fl)); [apply elem_of_app; by right|done].
Qed.

End LoadProps.

(** ** The resolver under [_load] *)

Section ResolverProps.
Import PyFile Resolver.
Context {W : Type}.
Variable realpath : string → string.
Variable read_file : string → result string.
Variable parse : string → result ast.

Lemma resolve_segments_chain (finder : Finder)
    (search_path segs dirs : list string) (file : string) :
  package_chain finder search_path segs dirs file →
  ∃ parent,
    resolve_segments finder search_path segs
    = Ok (parent, (init_file <$> dirs) ++ [file]).
Proof.
  induction 1 as [search_path seg file Hf
                 |search_path seg dir rest dirs file Hf _ [parent IH]].
  - exists search_path. simpl. by rewrite Hf.
  - exists parent. simpl. rewrite Hf. simpl. by rewrite IH.
Qed.

(** C1.  A dotted name whose segments but the last are packages and
    whose last is a module resolves to the initializers of the packages
    followed by the module's file; a file that imports this one name
    loads with exactly these as its set of imports, each once, and
    nothing logged. *)
Theorem load_package_chain (finder : Finder) (self : PyFile.t)
    (workspace : Workspace.t (W:=W)) (name text : string) (tree : ast)
    (dirs : list string) (file : string) :
  package_chain finder (Workspace.python_path workspace)
    (PyStr.split "." name) dirs file →
  read_file (Path.abs (path self)) = Ok text →
  parse text = Ok tree →
  parsed_imports tree = [(name, false)] →
  let root := Workspace.root_dir workspace in
  (∃ parent,
     resolve_import name finder (Workspace.python_path workspace)
     = Ok (parent, (init_file <$> dirs) ++ [file]))
  ∧ ∃ found : gset Path,
      PyFile._load realpath read_file parse resolve_import self workspace finder
      = Ok (PyFile.mk (path self) found (outgoing self) (incoming self), [])
      ∧ ∀ p, p ∈ found ↔
          (∃ dir, dir ∈ dirs
                  ∧ p = Path.new realpath (realpath (init_file dir)) root)
          ∨ p = Path.new realpath (realpath file) root.
Proof.
  intros Hchain Hread Hparse Hparsed root.
  destruct (resolve_segments_chain _ _ _ _ _ Hchain) as [parent Hres].
  split; [by exists parent|].
  eexists. split.
  - unfold PyFile._load. rewrite Hread. simpl. rewrite Hparse, Hparsed. simpl.
    unfold resolve_import. rewrite Hres. simpl. reflexivity.
  - intros p. fold root.
    rewrite elem_of_union, elem_of_list_to_set, list_elem_of_fmap.
    split.
    + intros [Hempty|(q & -> & Hq)]; [by apply elem_of_empty in Hempty|].
      apply elem_of_app in Hq as [(dir & -> & Hdir)%list_elem_of_fmap
                                 | ->%list_elem_of_singleton]; eauto.
    + intros [(dir & Hdir & ->)| ->]; right.
      * exists (init_file dir). split; [done|].
        apply elem_of_app. left. apply list_elem_of_fmap. eauto.
      * exists file. split; [done|].
        apply elem_of_app. right. by apply list_elem_of_singleton.
Qed.

End ResolverProps.

(** The cases of [PyFileTest]. *)
Example test_load_empty :
  Fixtures.load_src "" = Ok (Fixtures.src_py, []).
Proof. reflexivity. Qed.

Example test_load_malformed :
  Fixtures.load_src "invalid python"
  = Ok (Fixtures.src_py,
        [LogRecord INFO (CouldntParse (Path.mk "/tmp/src.py" "/tmp") "invalid syntax")]).
Proof. reflexivity. Qed.

Example test_load_import :
  ∃ f, Fixtures.load_src "import root.pkg.mod" = Ok (f, [])
       ∧ PyFile.imports f
         = {[ Path.mk "/root/__init__.py" "/tmp";
              Path.mk "/root/pkg/__init__.py" "/tmp";
              Path.mk "/root/pkg/mod.py" "/tmp" ]}
       ∧ size (PyFile.imports f) = 3.
Proof. eexists. split; [reflexivity|]. split; by_running. Qed.

Example test_load_from_import_nonmod :
  ∃ f, Fixtures.load_src "from root.pkg import Classy" = Ok (f, [])
       ∧ PyFile.imports f
         = {[ Path.mk "/root/__init__.py" "/tmp";
              Path.mk "/root/pkg/__init__.py" "/tmp" ]}.
Proof. eexists. split; [reflexivity|]. by_running. Qed.

Example test_load_from_import_mod :
  ∃ f, Fixtures.load_src "from root.pkg import mod" = Ok (f, [])
       ∧ PyFile.imports f
         = {[ Path.mk "/root/__init__.py" "/tmp";
              Path.mk "/root/pkg/__init__.py" "/tmp";
              Path.mk "/root/pkg/mod.py" "/tmp" ]}.
Proof. eexists. split; [reflexivity|]. by_running. Qed.

(** ** [PyFile]: linking *)

Section VisitProps.
Import PyFile.
Variable find_file : Path → option vid.

Implicit Types (σ : gmap vid PyFile.t) (self v : vid) (l : list Path).

Lemma t_eq (f g : PyFile.t) :
  path f = path g → imports f = imports g →
  outgoing f = outgoing g → incoming f = incoming g → f = g.
Proof. destruct f, g; simpl; by intros -> -> -> ->. Qed.

(** The loop of [visit] over the imports [l]: what it has added to the
    vertex kept at [v]. *)
Lemma visit_fold self l : ∀ σ v,
  foldl (visit_import find_file self) σ l !! v
  = (λ g, PyFile.mk (path g) (imports g)
            (outgoing g
               ∪ (if decide (v = self)
                  then list_to_set (mkEdge IMPORT self <$> omap find_file l)
                  else ∅))
            (incoming g
               ∪ (if decide (v ∈ omap find_file l)
                  then {[mkEdge IMPORT self v]} else ∅)))
      <$> σ !! v.
Proof.
  induction l as [|i l IH]; intros σ v.
  - simpl. destruct (σ !! v) as [g|]; [|done]. simpl. f_equal.
    apply t_eq; simpl; try done; try case_match; set_solver.
  - simpl. rewrite IH. unfold visit_import.
    destruct (find_file i) as [d|] eqn:Hfind; simpl; [|done].
    rewrite !lookup_alter.
    destruct (decide (d = v)) as [->|Hd];
      destruct (decide (self = v)) as [->|Hs];
      destruct (σ !! v) as [g|] eqn:Hg; simpl; try done;
      f_equal; apply t_eq; simpl; try done;
      repeat case_decide; try done; set_solver.
Qed.

(** C4.  After [visit] every vertex of the store is still there with its
    path and imports; the outgoing set of the visiting vertex has gained
    the edge [Import self -> d] for every [d] found for one of its
    imports, and no other; the incoming set of every vertex found has
    gained that same edge, and no other; an import for which nothing is
    found adds nothing. *)
Theorem visit_links σ self (f : PyFile.t) :
  σ !! self = Some f →
  (∀ v, σ !! v = None → visit find_file self σ !! v = None)
  ∧ ∀ v g, σ !! v = Some g →
      ∃ g', visit find_file self σ !! v = Some g'
        ∧ path g' = path g
        ∧ imports g' = imports g
        ∧ (∀ e, e ∈ outgoing g' ↔
             e ∈ outgoing g
             ∨ (v = self
                ∧ ∃ i d, i ∈ imports f ∧ find_file i = Some d
                         ∧ e = mkEdge IMPORT self d))
        ∧ (∀ e, e ∈ incoming g' ↔
             e ∈ incoming g
             ∨ (∃ i, i ∈ imports f ∧ find_file i = Some v
                     ∧ e = mkEdge IMPORT self v)).
Proof.
  intros Hself. unfold visit. rewrite Hself. split.
  - intros v Hv. by rewrite visit_fold, Hv.
  - intros v g Hg. rewrite visit_fold, Hg. simpl. eexists.
    split; [reflexivity|]. simpl. split; [done|]. split; [done|].
    assert (∀ d, d ∈ omap find_file (elements (imports f))
                 ↔ ∃ i, i ∈ imports f ∧ find_file i = Some d) as Hfound.
    { intros d. rewrite list_elem_of_omap. by setoid_rewrite elem_of_elements. }
    split; intros e; rewrite elem_of_union; apply or_iff_compat_l.
    + case_decide as Hv.
      * rewrite elem_of_list_to_set, list_elem_of_fmap. split.
        -- intros (d & -> & (i & Hi & Hd)%Hfound). split; [done|]. eauto.
        -- intros (_ & i & d & Hi & Hd & ->). exists d. split; [done|].
           apply Hfound. eauto.
      * split; [by intros ?%elem_of_empty|by intros [? _]].
    + case_decide as Hv.
      * rewrite elem_of_singleton. apply Hfound in Hv as (i & Hi & Hd).
        split; [intros ->; eauto|by intros (_ & _ & _ & ->)].
      * split; [by intros ?%elem_of_empty|].
        intros (i & Hi & Hd & _). destruct Hv. apply Hfound. eauto.
Qed.

End VisitProps.

(** Linking the graph of the fixture from [a.py]: one edge, to [b.py],
    in the outgoing set of the one and the incoming set of the other;
    [c.py] has no edge. *)
Example test_link_a_b :
  let σ := PyFile.visit Fixtures.test_find_file 0 Fixtures.test_store in
  (PyFile.outgoing <$> σ !! 0) = Some {[mkEdge IMPORT 0 1]}
  ∧ (PyFile.incoming <$> σ !! 0) = Some ∅
  ∧ (PyFile.outgoing <$> σ !! 1) = Some ∅
  ∧ (PyFile.incoming <$> σ !! 1) = Some {[mkEdge IMPORT 0 1]}
  ∧ dom σ = {[0; 1]}.
Proof. vm_compute. repeat split; reflexivity. Qed.

(** [visit_links] at the fixture: what [b.py] has after the visit. *)
Lemma visit_links_witness :
  ∃ g', PyFile.visit Fixtures.test_find_file 0 Fixtures.test_store !! 1 = Some g'
        ∧ PyFile.path g' = Fixtures.path_b
        ∧ mkEdge IMPORT 0 1 ∈ PyFile.incoming g'.
Proof.
  destruct (visit_links Fixtures.test_find_file Fixtures.test_store 0
              (PyFile.mk Fixtures.path_a {[Fixtures.path_b; Fixtures.path_c]} ∅ ∅)
              eq_refl) as [_ H].
  destruct (H 1 (PyFile.mk Fixtures.path_b ∅ ∅ ∅) eq_refl)
    as (g' & Hg' & Hpath & _ & _ & Hin).
  exists g'. split; [exact Hg'|]. split; [exact Hpath|].
  apply Hin. right. exists Fixtures.path_b.
  split; [apply elem_of_union; left; by apply elem_of_singleton|].
  split; reflexivity.
Defined.

(** [load_syntax_error] at [test_load_malformed]. *)
Lemma load_syntax_error_witness :
  Fixtures.load_src "invalid python"
  = Ok (Fixtures.src_py,
        [LogRecord INFO (CouldntParse (Path.mk "/tmp/src.py" "/tmp") "invalid syntax")]).
Proof.
  exact (proj1 (load_syntax_error PosixPath.normpath
                  (Fixtures.read_const "invalid python") Fixtures.test_parse
                  Resolver.resolve_import (Path.mk "/tmp/src.py" "/tmp")
                  (Fixtures.test_workspace None []) Fixtures.test_finder
                  "invalid python" "invalid syntax" eq_refl eq_refl)).
Defined.

(** [load_recovers_resolution_failure] at a file that imports a name
    not to be found and then, as [test_load_from_import_nonmod] does, a
    class from a package: the first failure is in the log returned, the
    second is not, and the imports are those of the package. *)
Lemma load_recovers_resolution_failure_witness :
  ∃ f logs,
    PyFile._load PosixPath.normpath
      (Fixtures.read_const "import nosuch; from root.pkg import Classy")
      (λ _, Ok (PyFile.Node [PyFile.Import ["nosuch"%string];
                             PyFile.ImportFrom "root.pkg" ["Classy"%string]]))
      Resolver.resolve_import Fixtures.src_py
      (Fixtures.test_workspace None []) Fixtures.test_finder
    = Ok (f, logs)
    ∧ logs = [LogRecord INFO
                (FailedToResolve (Path.mk "/tmp/src.py" "/tmp") "nosuch"
                   "No module named nosuch")]
    ∧ PyFile.imports f
      = {[ Path.mk "/root/__init__.py" "/tmp";
           Path.mk "/root/pkg/__init__.py" "/tmp" ]}.
Proof.
  eexists _, _. split; [reflexivity|].
  destruct (load_recovers_resolution_failure PosixPath.normpath
              (Fixtures.read_const "import nosuch; from root.pkg import Classy")
              (λ _, Ok (PyFile.Node [PyFile.Import ["nosuch"%string];
                                     PyFile.ImportFrom "root.pkg" ["Classy"%string]]))
              Resolver.resolve_import
              Fixtures.src_py (Fixtures.test_workspace None [])
              Fixtures.test_finder
              "import nosuch; from root.pkg import Classy"
              (PyFile.Node [PyFile.Import ["nosuch"%string];
                            PyFile.ImportFrom "root.pkg" ["Classy"%string]])
              [] [("root.pkg"%string, false); ("root.pkg.Classy"%string, true)]
              "nosuch" false "No module named nosuch"
              eq_refl eq_refl eq_refl eq_refl) as (_ & _ & Hlog & _).
  split.
  - exact (proj1 (Hlog _ _ eq_refl)).
  - by_running.
Defined.

(** [load_package_chain] at [test_load_import]. *)
Lemma load_package_chain_witness :
  ∃ parent,
    Resolver.resolve_import "root.pkg.mod" Fixtures.test_finder []
    = Ok (parent, ["/root/__init__.py"; "/root/pkg/__init__.py"; "/root/pkg/mod.py"]%string).
Proof.
  refine (proj1 (load_package_chain (W:=nat) PosixPath.normpath
                   (Fixtures.read_const "import root.pkg.mod") Fixtures.test_parse
                   Fixtures.test_finder Fixtures.src_py
                   (Fixtures.test_workspace None [])
                   "root.pkg.mod" "import root.pkg.mod"
                   (PyFile.Node [PyFile.Import ["root.pkg.mod"%string]])
                   ["/root/"; "/root/pkg/"]%string "/root/pkg/mod.py"
                   _ eq_refl eq_refl eq_refl)).
  apply Resolver.chain_package; [reflexivity|].
  apply Resolver.chain_package; [reflexivity|].
  apply Resolver.chain_module. reflexivity.
Defined.

(** * Part III: further properties of the code *)

(** ** [Path]: comparisons, [shortest], [abbreviate] *)

Section PathMore.
Import PyStr.
Variable cwd : string.

Lemma str_app_assoc (a b c : string) : (a +:+ b) +:+ c = a +:+ b +:+ c.
Proof.
  induction a as [|x a IH]; [done|]. rewrite !app_cons. by rewrite IH.
Qed.

Lemma drop_drop (a b : nat) (s : string) : drop b (drop a s) = drop (a + b) s.
Proof.
  revert s. induction a as [|a IH]; intros s; [done|].
  destruct s as [|c s]; simpl; [by destruct b|]. apply IH.
Qed.

(** A later tail of a text ends an earlier one. *)
Lemma drop_suffix (a b : nat) (s : string) :
  a ≤ b → ∃ pre, drop a s = pre +:+ drop b s.
Proof.
  intros Hab. exists (take (b - a) (drop a s)).
  replace (drop b s) with (drop (b - a) (drop a s)).
  - by rewrite take_drop.
  - rewrite drop_drop. f_equal. lia.
Qed.

(** The order of [Path] looks at the absolute path only, equality at
    the root as well: two paths are each [<=] the other exactly when
    their absolute paths agree, which does not make them equal; [<] one
    way is [>] the other way, and any two paths are comparable. *)
Theorem path_order_ignores_root (a b : Path) :
  (PathCmp.__le__ a b = true ∧ PathCmp.__le__ b a = true
   ↔ Path.abs a = Path.abs b)
  ∧ (PathCmp.__eq__ a b = true ↔ a = b)
  ∧ (PathCmp.__lt__ a b = true ↔ PathCmp.__gt__ b a = true)
  ∧ (PathCmp.__le__ a b = true ∨ PathCmp.__le__ b a = true).
Proof.
  unfold PathCmp.__le__, PathCmp.__lt__, PathCmp.__gt__, PathCmp.__ge__,
    PathCmp.__eq__, String.ltb, String.leb.
  destruct a as [aa ar], b as [ba br]; simpl.
  pose proof (String.compare_antisym aa ba) as Hanti.
  pose proof (String.compare_eq_iff aa ba) as Heq.
  split; [|split; [|split]].
  - split.
    + intros [H1 H2]. apply Heq.
      destruct (String.compare aa ba), (String.compare ba aa); simpl in *;
        congruence.
    + intros ->. destruct (String.compare ba ba); simpl in Hanti; done.
  - rewrite andb_true_iff, !String.eqb_eq. split; [by intros [-> ->]|].
    by intros [= -> ->].
  - rewrite Hanti. by destruct (String.compare ba aa).
  - rewrite Hanti. destruct (String.compare ba aa); simpl; auto.
Qed.

(** [shortest] is the relative or the absolute text, and never longer
    than the absolute one. *)
Theorem shortest_not_longer (self : Path) (res : string) :
  Path.shortest cwd self = Ok res →
  len res ≤ len (Path.abs self)
  ∧ (res = Path.abs self ∨ Path.rel cwd self = Ok res).
Proof.
  unfold Path.shortest. destruct (Path.rel cwd self) as [r|e]; [|done].
  simpl. intros [= <-].
  destruct (Nat.ltb_spec (len r) (len (Path.abs self))); split; auto; lia.
Qed.

(** The three ways [abbreviate] ends: the assertion fails for
    [max_len < 16], before the path is looked at; with the assertion
    passed, a path with an empty absolute text raises the [ValueError]
    of [relpath]; every other path gets a result. *)
Theorem abbreviate_outcomes (self : Path) (max_len : Z) (require_basename : bool) :
  ((max_len < 16)%Z →
   Path.abbreviate cwd self max_len require_basename = Raise AssertionError)
  ∧ ((16 ≤ max_len)%Z → Path.abs self = EmptyString →
     Path.abbreviate cwd self max_len require_basename = Raise ValueError)
  ∧ ((16 ≤ max_len)%Z → Path.abs self ≠ EmptyString →
     ∃ out, Path.abbreviate cwd self max_len require_basename = Ok out).
Proof.
  unfold Path.abbreviate. split; [|split].
  - intros H. by destruct (Z.ltb_spec max_len 16); [|lia].
  - intros H Habs. destruct (Z.ltb_spec max_len 16); [lia|].
    unfold Path.shortest, Path.rel, PosixPath.relpath. by rewrite Habs.
  - intros H Habs. destruct (Z.ltb_spec max_len 16); [lia|].
    destruct (rel_defined cwd self Habs) as [r Hr].
    unfold Path.shortest. rewrite Hr. simpl.
    destruct (_ <=? _)%Z; by eexists.
Qed.

(** With [require_basename] the result ends with the whole basename of
    the text that is abbreviated, as the docstring promises. *)
Theorem abbreviate_keeps_basename (self : Path) (max_len : Z) (res out : string) :
  Path.shortest cwd self = Ok res →
  Path.abbreviate cwd self max_len true = Ok out →
  ∃ pre, out = pre +:+ PosixPath.basename res.
Proof.
  intros Hshort. unfold Path.abbreviate.
  destruct (Z.ltb_spec max_len 16) as [|Hmax]; [done|].
  rewrite Hshort. simpl.
  destruct (Z.leb_spec (Z.of_nat (len res)) max_len) as [|Hlong].
  - intros [= <-]. unfold PosixPath.basename.
    exists (take (rfind1 PosixPath.sep res) res). by rewrite take_drop.
  - intros [= <-].
    pose proof (two_thirds_bounds max_len Hmax) as [Hs10 _].
    pose proof (rfind1_le PosixPath.sep res) as Hr.
    set (base := len (PosixPath.basename res)).
    assert (Hbase : base = len res - rfind1 PosixPath.sep res).
    { unfold base, PosixPath.basename. by rewrite len_drop. }
    set (sc := Z.to_nat (if (Path.two_thirds max_len <? Z.of_nat base)%Z
                         then Z.of_nat base else Path.two_thirds max_len)).
    assert (Hsc : 0 < sc ∧ base ≤ sc).
    { unfold sc. destruct (Z.ltb_spec (Path.two_thirds max_len) (Z.of_nat base)); lia. }
    assert (Hlast : last_chars sc res = drop (len res - sc) res).
    { unfold last_chars. destruct sc; [lia|done]. }
    rewrite Hlast.
    destruct (drop_suffix (len res - sc) (rfind1 PosixPath.sep res) res
                ltac:(lia)) as [mid Hmid].
    rewrite Hmid. unfold PosixPath.basename.
    eexists. rewrite <- !str_app_assoc. reflexivity.
Qed.

End PathMore.

(** [path_order_ignores_root] at one file seen from two roots. *)
Lemma path_order_ignores_root_witness :
  let a := Path.mk "/tmp/foo" "/tmp" in
  let b := Path.mk "/tmp/foo" "/" in
  PathCmp.__le__ a b = true ∧ PathCmp.__le__ b a = true
  ∧ PathCmp.__eq__ a b = false.
Proof.
  intros a b.
  destruct (path_order_ignores_root a b) as (Hle & _ & _ & _).
  destruct (proj2 Hle eq_refl) as [H1 H2].
  split; [exact H1|]. split; [exact H2|]. reflexivity.
Defined.

(** [shortest_not_longer] at the path of [test_abbrev_rel_shorter]. *)
Lemma shortest_not_longer_witness :
  PyStr.len "bar" ≤ PyStr.len "/foo/bar".
Proof.
  exact (proj1 (shortest_not_longer "/" (Path.mk "/foo/bar" "/foo") "bar" eq_refl)).
Defined.

(** [abbreviate_outcomes] at a width below the least. *)
Lemma abbreviate_outcomes_witness :
  Path.abbreviate "/" (Path.mk "/foo/bar" "/foo") 15 true = Raise AssertionError
  ∧ ∃ out, Path.abbreviate "/" (Path.mk "/foo/bar" "/foo") 16 true = Ok out.
Proof.
  split.
  - exact (proj1 (abbreviate_outcomes "/" (Path.mk "/foo/bar" "/foo") 15 true)
             ltac:(lia)).
  - exact (proj2 (proj2 (abbreviate_outcomes "/" (Path.mk "/foo/bar" "/foo") 16 true))
             ltac:(lia) ltac:(discriminate)).
Defined.

(** [abbreviate_keeps_basename] at [test_abbrev_require_long_basename]. *)
Lemma abbreviate_keeps_basename_witness :
  ∃ pre, "..this_is_a_very_long_basename"%string
         = pre +:+ "this_is_a_very_long_basename".
Proof.
  exact (abbreviate_keeps_basename "/"
           (Path.mk "/foo/this_is_a_very_long_basename" "/bar") 16
           "/foo/this_is_a_very_long_basename"
           "..this_is_a_very_long_basename" eq_refl eq_refl).
Defined.

(** ** [Workspace]: more on the walk and the reload *)

Section ReloadMore.
Import Workspace.
Context {W : Type}.
Variable realpath : string → string.

Implicit Types (self : Workspace.t (W:=W)) (tree : fsnode) (w : W).

(** The loop that removes names from [dirnames] while it runs over a
    copy leaves exactly the names that are neither hidden nor excluded,
    in their order and as often as they occurred. *)
Theorem prune_keeps_exactly (exclude : list string) (dirnames : list string) :
  prune exclude dirnames
  = filter (λ name, skipped exclude name = false) dirnames
  ∧ (∀ name, name ∈ prune exclude dirnames
             ↔ name ∈ dirnames ∧ skipped exclude name = false)
  ∧ prune exclude dirnames `sublist_of` dirnames.
Proof.
  rewrite prune_filter. split; [done|]. split.
  - intros name. rewrite list_elem_of_filter. tauto.
  - apply sublist_filter.
Qed.

(** What a listener is called with: the two sets are disjoint, the
    first is part of the old set and the second of the new one, and
    taking the first from the old set and adding the second gives the
    new set. *)
Theorem reload_delta self tree w (c : call) :
  c ∈ calls (reload_file_list realpath self tree w) →
  let new_files := files (ws_after (reload_file_list realpath self tree w)) in
  arg_removed c ## arg_added c
  ∧ arg_removed c ⊆ files self
  ∧ arg_added c ⊆ new_files
  ∧ new_files = (files self ∖ arg_removed c) ∪ arg_added c
  ∧ files self = (new_files ∖ arg_added c) ∪ arg_removed c.
Proof.
  intros Hc new_files. unfold new_files. rewrite reload_ws_after. simpl.
  destruct (reload_calls realpath self tree w) as [Hcalls _].
  rewrite Hcalls in Hc.
  destruct (run_listeners_prefix (file_listeners self) 0
              (files self ∖ walked_files realpath self tree)
              (walked_files realpath self tree ∖ files self) w)
    as (k & _ & Hk & _).
  rewrite Hk in Hc. unfold calls_from in Hc.
  apply list_elem_of_fmap in Hc as (i & -> & _). simpl.
  set (old := files self). set (new := walked_files realpath self tree).
  repeat split; try set_solver.
  - apply set_eq. intros p. rewrite elem_of_union, !elem_of_difference.
    destruct (decide (p ∈ old)), (decide (p ∈ new)); set_solver.
  - apply set_eq. intros p. rewrite elem_of_union, !elem_of_difference.
    destruct (decide (p ∈ old)), (decide (p ∈ new)); set_solver.
Qed.

(** A second reload over an unchanged tree stores the same set and
    calls the listeners with two empty sets. *)
Theorem reload_again self tree w w' (c : call) :
  let self1 := ws_after (reload_file_list realpath self tree w) in
  let out := reload_file_list realpath self1 tree w' in
  files (ws_after out) = files self1
  ∧ (c ∈ calls out → arg_removed c = ∅ ∧ arg_added c = ∅).
Proof.
  intros self1 out.
  assert (files self1 = walked_files realpath self tree) as Hfiles.
  { unfold self1. by rewrite reload_ws_after. }
  assert (walked_files realpath self1 tree = walked_files realpath self tree)
    as Hwalk.
  { unfold self1. by rewrite reload_ws_after. }
  unfold out. rewrite reload_ws_after. simpl. rewrite Hwalk, Hfiles.
  split; [done|]. intros Hc.
  destruct (reload_calls realpath self1 tree w') as [Hcalls _].
  rewrite Hcalls in Hc. clear Hcalls.
  destruct (run_listeners_prefix (file_listeners self1) 0
              (files self1 ∖ walked_files realpath self1 tree)
              (walked_files realpath self1 tree ∖ files self1) w')
    as (k & _ & Hk & _).
  rewrite Hk in Hc.
  unfold calls_from in Hc. apply list_elem_of_fmap in Hc as (i & -> & _).
  simpl. rewrite Hwalk, Hfiles.
  split; apply set_eq; intros p; set_solver.
Qed.

(** Where the root is not a directory that can be listed, the reload
    leaves the stored set empty and reports every file it held as
    removed and none as added. *)
Theorem reload_without_root self tree w (c : call) :
  (∀ name children, tree ≠ FDir name children) →
  let out := reload_file_list realpath self tree w in
  files (ws_after out) = ∅
  ∧ (c ∈ calls out → arg_removed c = files self ∧ arg_added c = ∅).
Proof.
  intros Hnodir out.
  assert (walked_files realpath self tree = ∅) as Hempty.
  { unfold walked_files. destruct tree as [?|name children|?]; try done.
    by destruct (Hnodir name children). }
  unfold out. rewrite reload_ws_after. simpl. split; [done|].
  intros Hc. destruct (reload_calls realpath self tree w) as [Hcalls _].
  rewrite Hcalls, Hempty in Hc.
  destruct (run_listeners_prefix (file_listeners self) 0
              (files self ∖ ∅) (∅ ∖ files self) w) as (k & _ & Hk & _).
  rewrite Hk in Hc. unfold calls_from in Hc.
  apply list_elem_of_fmap in Hc as (i & -> & _). simpl.
  split; apply set_eq; intros p; set_solver.
Qed.

(** Every path a reload stores remembers the root directory the
    workspace had at the reload; the reload changes neither the config,
    nor the listeners, nor the workspace directory. *)
Theorem reload_files_rooted self tree w :
  let self' := ws_after (reload_file_list realpath self tree w) in
  (∀ p, p ∈ files self' → Path.ws_root p = root_dir self)
  ∧ config self' = config self
  ∧ file_listeners self' = file_listeners self
  ∧ workspace_dir self' = workspace_dir self.
Proof.
  intros self'. unfold self'. rewrite reload_ws_after. simpl.
  split; [|done]. intros p. unfold walked_files.
  rewrite elem_of_list_to_set, list_elem_of_fmap. by intros (q & -> & _).
Qed.

End ReloadMore.

(** [reload_delta] and [reload_again] at the tree of the tests with one
    listener. *)
Lemma reload_delta_witness :
  let self := Fixtures.test_workspace None [Fixtures.counting] in
  let out := Workspace.reload_file_list PosixPath.normpath self Fixtures.test_tree 0 in
  ∃ c, c ∈ Workspace.calls out
       ∧ Workspace.arg_removed c ## Workspace.arg_added c
       ∧ Workspace.arg_added c ⊆ Workspace.files (Workspace.ws_after out).
Proof.
  intros self out.
  set (new := Workspace.walked_files PosixPath.normpath self Fixtures.test_tree).
  assert (Workspace.Call 0 (Workspace.files self ∖ new) (new ∖ Workspace.files self)
          ∈ Workspace.calls out) as Hc by (left).
  exists (Workspace.Call 0 (Workspace.files self ∖ new) (new ∖ Workspace.files self)).
  split; [exact Hc|].
  destruct (reload_delta PosixPath.normpath self Fixtures.test_tree 0 _ Hc)
    as (Hdisj & _ & Hadd & _).
  split; [exact Hdisj|exact Hadd].
Defined.

Lemma reload_again_witness :
  let self := Fixtures.test_workspace None [Fixtures.counting] in
  let self1 := Workspace.ws_after
                 (Workspace.reload_file_list PosixPath.normpath self
                    Fixtures.test_tree 0) in
  Workspace.files
    (Workspace.ws_after
       (Workspace.reload_file_list PosixPath.normpath self1 Fixtures.test_tree 1))
  = Workspace.files self1.
Proof.
  intros self self1.
  exact (proj1 (reload_again PosixPath.normpath self Fixtures.test_tree 0 1
                  (Workspace.Call 0 ∅ ∅))).
Defined.

(** [reload_without_root] where the root is a plain file. *)
Lemma reload_without_root_witness :
  let self := Fixtures.test_workspace None [Fixtures.counting] in
  Workspace.files
    (Workspace.ws_after
       (Workspace.reload_file_list PosixPath.normpath self
          (Workspace.FFile "tmp") 0))
  = ∅.
Proof.
  intros self.
  exact (proj1 (reload_without_root PosixPath.normpath self
                  (Workspace.FFile "tmp") 0 (Workspace.Call 0 ∅ ∅)
                  ltac:(discriminate))).
Defined.

(** [reload_files_rooted] at the tree of the tests. *)
Lemma reload_files_rooted_witness :
  let self := Fixtures.test_workspace None [] in
  let self' := Workspace.ws_after
                 (Workspace.reload_file_list PosixPath.normpath self
                    Fixtures.test_tree 0) in
  Path.mk "/tmp/dir1/file1" "/tmp" ∈ Workspace.files self'
  ∧ Path.ws_root (Path.mk "/tmp/dir1/file1" "/tmp") = Workspace.root_dir self.
Proof.
  intros self self'.
  assert (Path.mk "/tmp/dir1/file1" "/tmp" ∈ Workspace.files self') as Hin
    by by_running.
  split; [exact Hin|].
  exact (proj1 (reload_files_rooted PosixPath.normpath self Fixtures.test_tree 0)
           _ Hin).
Defined.

(** ** [Workspace]: the setters, the editor options, the constructor *)

Section ConfigMore.
Import Workspace.
Context {W : Type}.
Variable realpath : string → string.
Variable cwd : string.
Variable json_dumps : Config → string.
Variable device : string → string → written.

Implicit Types (self : Workspace.t (W:=W)) (fs : gmap string fsobj).

Lemma write_config_frame self fs (q : string) :
  q ≠ PosixPath.join (workspace_dir self) "config" →
  (_write_config json_dumps device self fs).1 !! q = fs !! q.
Proof.
  intros Hq. pose proof (write_config_outcome json_dumps device self fs) as Hw.
  unfold write_outcome in Hw.
  destruct (isdir fs (workspace_dir self)).
  - destruct Hw as [(_ & _ & -> & _)
                   |[(e & _ & -> & _)|(n & e & _ & _ & -> & _)]];
      [|done|]; by rewrite lookup_insert_ne.
  - by destruct Hw as [-> _].
Qed.

Lemma write_config_keeps self fs (q : string) :
  is_Some (fs !! q) → is_Some ((_write_config json_dumps device self fs).1 !! q).
Proof.
  intros Hq. pose proof (write_config_outcome json_dumps device self fs) as Hw.
  unfold write_outcome in Hw.
  destruct (isdir fs (workspace_dir self)).
  - destruct Hw as [(_ & _ & -> & _)
                   |[(e & _ & -> & _)|(n & e & _ & _ & -> & _)]];
      [|done|];
      (destruct (decide (PosixPath.join (workspace_dir self) "config" = q))
         as [->|];
       [by rewrite lookup_insert_eq|by rewrite lookup_insert_ne]).
  - by destruct Hw as [-> _].
Qed.


(** The paths [open_files] reads back after its setter are those of the
    relative texts of the paths given, each relative to the root its
    path was made with, and all of them re-rooted at the workspace's
    root directory. *)
Theorem set_open_files_get self fs (paths : list Path) self' fs'
    (logs : list log_record) :
  set_open_files cwd json_dumps device self paths fs = Ok (self', fs', logs) →
  ∃ rels,
    mapM (Path.rel cwd) paths = Ok rels
    ∧ length rels = length paths
    ∧ open_files realpath self'
      = (λ r, Path.new realpath r (root_dir self)) <$> rels
    ∧ (∀ q, q ∈ open_files realpath self' → Path.ws_root q = root_dir self)
    ∧ root_dir self' = root_dir self.
Proof.
  unfold set_open_files.
  destruct (mapM (Path.rel cwd) paths) as [rels|e] eqn:Hrels; [|done].
  simpl. destruct (_write_config _ _ _) as [fs1 logs1]. intros [= <- _ _].
  exists rels. split; [done|]. split.
  { clear -Hrels. revert rels Hrels.
    induction paths as [|p paths IH]; intros rels; simpl.
    - by intros [= <-].
    - destruct (Path.rel cwd p) as [r|]; [|done]. simpl.
      destruct (mapM (Path.rel cwd) paths) as [rs|]; [|done]. simpl.
      intros [= <-]. simpl. f_equal. by apply IH. }
  split; [done|]. split; [|done].
  intros q. unfold open_files. simpl.
  by intros (r & -> & _)%list_elem_of_fmap.
Qed.

(** A setter touches nothing in the file system but the config file: it
    changes what is at no other path and removes nothing. *)
Theorem setters_touch_only_config self fs (root : string) (paths : list Path)
    self' fs' (logs : list log_record) :
  set_root_dir json_dumps device self root fs = Ok (self', fs', logs)
  ∨ set_open_files cwd json_dumps device self paths fs = Ok (self', fs', logs) →
  (∀ q, q ≠ PosixPath.join (workspace_dir self) "config" → fs' !! q = fs !! q)
  ∧ (∀ q, is_Some (fs !! q) → is_Some (fs' !! q)).
Proof.
  intros [H|H].
  - unfold set_root_dir in H.
    match type of H with
    | context [_write_config json_dumps device ?s fs] =>
        pose proof (write_config_frame s fs) as Hframe;
        pose proof (write_config_keeps s fs) as Hkeeps;
        destruct (_write_config json_dumps device s fs) as [fs1 logs1]
    end.
    simpl in *. injection H as <- <- <-. split; [exact Hframe|exact Hkeeps].
  - unfold set_open_files in H.
    destruct (mapM (Path.rel cwd) paths) as [rels|e]; [|done]. simpl in H.
    match type of H with
    | context [_write_config json_dumps device ?s fs] =>
        pose proof (write_config_frame s fs) as Hframe;
        pose proof (write_config_keeps s fs) as Hkeeps;
        destruct (_write_config json_dumps device s fs) as [fs1 logs1]
    end.
    simpl in *. injection H as <- <- <-. split; [exact Hframe|exact Hkeeps].
Qed.

End ConfigMore.

Section EditorOptions.
Import WorkspaceInit.

Lemma default_editor_options_size : size default_editor_options = 10.
Proof. by_running. Qed.

(** [editor_options] always holds the ten defaults' keys; an entry of
    the config wins over the default, a key the config does not have
    keeps its default; the result has more than ten entries exactly
    when the config has a key that is no default's. *)
Theorem editor_options_defaults (configured : option (gmap string optval))
    (key : string) :
  let overrides := default ∅ configured in
  (is_Some (default_editor_options !! key) →
   is_Some (editor_options configured !! key))
  ∧ (∀ v, overrides !! key = Some v → editor_options configured !! key = Some v)
  ∧ (overrides !! key = None →
     editor_options configured !! key = default_editor_options !! key)
  ∧ 10 ≤ size (editor_options configured)
  ∧ (size (editor_options configured) = 10
     ↔ dom overrides ⊆ dom default_editor_options).
Proof.
  intros overrides. unfold editor_options. fold overrides.
  assert (Hsize : size (overrides ∪ default_editor_options)
                  = size (dom overrides ∪ dom default_editor_options)).
  { by rewrite <- size_dom, dom_union_L. }
  assert (Hten : size (dom default_editor_options) = 10).
  { rewrite size_dom. apply default_editor_options_size. }
  split; [|split; [|split; [|split]]].
  - intros [v Hv]. destruct (overrides !! key) as [v'|] eqn:Ho.
    + exists v'. by apply lookup_union_Some_l.
    + exists v. by rewrite lookup_union_r.
  - intros v Hv. by apply lookup_union_Some_l.
  - intros Hnone. by apply lookup_union_r.
  - rewrite Hsize, <- Hten. apply subseteq_size, union_subseteq_r.
  - rewrite Hsize, <- Hten. clear Hsize Hten.
    generalize (dom default_editor_options) (dom overrides).
    intros D O. split.
    + intros Heq.
      assert (D = O ∪ D) as Hdom.
      { apply set_subseteq_size_eq; [apply union_subseteq_r|lia]. }
      rewrite Hdom. apply union_subseteq_l.
    + intros Hsub. f_equal. by apply subseteq_union_1_L.
Qed.

End EditorOptions.

(** [test_editor_option_override_defaults]. *)
Example test_editor_option_override_defaults :
  let opts := WorkspaceInit.editor_options
                (Some {[ "indent-width"%string := WorkspaceInit.OInt 42 ]}) in
  size opts = 10 ∧ opts !! "indent-width"%string = Some (WorkspaceInit.OInt 42)
  ∧ opts !! "auto-indent"%string = Some (WorkspaceInit.OBool true).
Proof. cbv zeta. repeat split; by_running. Qed.


(** [set_open_files_get] at the paths of
    [test_update_open_files_written]. *)
Lemma set_open_files_get_witness :
  ∃ self' fs' logs,
    Workspace.set_open_files "/" Fixtures.show_config Fixtures.disk
      (Fixtures.test_workspace None [])
      [Path.mk "/tmp/foo" "/tmp"; Path.mk "/tmp/bar" "/tmp"]
      Fixtures.fs_workspace
    = Ok (self', fs', logs)
    ∧ ∃ rels,
        length rels = 2
        ∧ Workspace.open_files PosixPath.normpath self'
          = (λ r, Path.new PosixPath.normpath r "/tmp") <$> rels.
Proof.
  eexists _, _, _. split; [reflexivity|].
  destruct (set_open_files_get PosixPath.normpath "/" Fixtures.show_config Fixtures.disk
              (Fixtures.test_workspace None []) Fixtures.fs_workspace
              [Path.mk "/tmp/foo" "/tmp"; Path.mk "/tmp/bar" "/tmp"]
              _ _ _ eq_refl) as (rels & _ & Hlen & Hget & _).
  exists rels. split; [exact Hlen|exact Hget].
Defined.

(** [setters_touch_only_config]: the directory [/tmp] is as it was. *)
Lemma setters_touch_only_config_witness :
  ∃ self' fs' logs,
    Workspace.set_root_dir Fixtures.show_config Fixtures.disk
      (Fixtures.test_workspace None []) "/src" Fixtures.fs_workspace
    = Ok (self', fs', logs)
    ∧ fs' !! "/tmp"%string = Fixtures.fs_workspace !! "/tmp"%string.
Proof.
  eexists _, _, _. split; [reflexivity|].
  refine (proj1 (setters_touch_only_config "/" Fixtures.show_config Fixtures.disk
                   (Fixtures.test_workspace None []) Fixtures.fs_workspace
                   "/src" [] _ _ _ (or_introl eq_refl)) "/tmp"%string _).
  discriminate.
Defined.

(** [editor_options_defaults] at the config of
    [test_editor_option_override_defaults]. *)
Lemma editor_options_defaults_witness :
  WorkspaceInit.editor_options
    (Some {[ "indent-width"%string := WorkspaceInit.OInt 42 ]})
    !! "indent-width"%string
  = Some (WorkspaceInit.OInt 42).
Proof.
  refine (proj1 (proj2 (editor_options_defaults
                          (Some {[ "indent-width"%string := WorkspaceInit.OInt 42 ]})
                          "indent-width")) (WorkspaceInit.OInt 42) _).
  by_running.
Defined.

(** ** [Workspace]: the constructor *)

Section InitProps.
Import Workspace WorkspaceInit.
Context {W : Type}.
Variable realpath : string → string.
Variable cwd : string.
Variable json_loads : string → result Config.
Variable tree_at : string → fsnode.

Implicit Types (fs : gmap string fsobj) (w : W).

Local Abbreviation __init__ :=
  (WorkspaceInit.__init__ (W:=W) realpath cwd json_loads tree_at).

Lemma reload_no_listeners (self : Workspace.t (W:=W)) (tree : fsnode) w :
  file_listeners self = [] →
  reload_file_list realpath self tree w
  = Reloaded
      (Workspace.mk (workspace_dir self) (walked_files realpath self tree)
         [] (config self))
      w [] None [LogRecord INFO LoadingFileList].
Proof.
  intros Hnil. unfold reload_file_list. simpl. by rewrite Hnil.
Qed.

(** What the constructor returns once the config is settled: a
    workspace without listeners whose files are those walked under the
    root directory of that config. *)
Lemma init_after_config (dir : string) (must_exist : bool) fs w
    (c : Config) (logs : list log_record) :
  let wsdir := PosixPath.abspath cwd dir in
  (must_exist = true → isdir fs wsdir = true) →
  _load_config json_loads (Workspace.mk (W:=W) wsdir ∅ [] empty_config) fs
  = Ok (Workspace.mk wsdir ∅ [] c, logs) →
  let self1 := Workspace.mk (W:=W) wsdir ∅ [] c in
  __init__ dir must_exist fs w
  = Ok (Workspace.mk wsdir
          (walked_files realpath self1 (tree_at (root_dir self1))) [] c,
        logs ++ [LogRecord INFO LoadingFileList]).
Proof.
  intros wsdir Hdir Hcfg self1. unfold WorkspaceInit.__init__. fold wsdir.
  simpl workspace_dir.
  assert (must_exist && negb (isdir fs wsdir) = false) as ->.
  { destruct must_exist; [|done]. by rewrite Hdir. }
  rewrite Hcfg. unfold mbind, result_bind.
  by rewrite reload_no_listeners.
Qed.

(** With [must_exist] the constructor raises where the workspace
    directory is missing; without it, and with no config file, it
    returns a workspace with the empty config, whose root directory is
    the directory above the workspace directory, whose files are those
    walked there, and nothing is logged about the config. *)
Theorem init_without_workspace_dir (dir : string) fs w :
  let wsdir := PosixPath.abspath cwd dir in
  isdir fs wsdir = false →
  fs !! PosixPath.join wsdir "config" = None →
  (∃ msg, __init__ dir true fs w = Raise (OtherError msg))
  ∧ ∃ self,
      __init__ dir false fs w = Ok (self, [LogRecord INFO LoadingFileList])
      ∧ workspace_dir self = wsdir
      ∧ config self = empty_config
      ∧ root_dir self = PosixPath.dirname wsdir
      ∧ file_listeners self = []
      ∧ files self
        = walked_files realpath self (tree_at (PosixPath.dirname wsdir)).
Proof.
  intros wsdir Hdir Hcfg. split.
  - unfold WorkspaceInit.__init__. fold wsdir. simpl workspace_dir.
    rewrite Hdir. simpl. by eexists.
  - eexists. split.
    + apply (init_after_config dir false fs w empty_config []); [done|].
      fold wsdir. unfold _load_config, read_file, exists_. simpl workspace_dir.
      by rewrite Hcfg.
    + done.
Qed.

(** A config file that is read and parsed decides the root directory
    the constructor walks: the files stored are those under the
    [root_dir] of the config. *)
Theorem init_reads_config (dir : string) (must_exist : bool) fs w
    (text : string) (c : Config) :
  let wsdir := PosixPath.abspath cwd dir in
  (must_exist = true → isdir fs wsdir = true) →
  fs !! PosixPath.join wsdir "config" = Some (FsFile text) →
  json_loads text = Ok c →
  ∃ self,
    __init__ dir must_exist fs w = Ok (self, [LogRecord INFO LoadingFileList])
    ∧ config self = c
    ∧ root_dir self = default (PosixPath.dirname wsdir) (cfg_root_dir c)
    ∧ files self = walked_files realpath self (tree_at (root_dir self))
    ∧ ∀ p, p ∈ files self → Path.ws_root p = root_dir self.
Proof.
  intros wsdir Hdir Hfile Hjson. eexists. split.
  - apply (init_after_config dir must_exist fs w c []); [done|].
    fold wsdir. unfold _load_config, read_file. simpl workspace_dir.
    rewrite Hfile. simpl. by rewrite Hjson.
  - split; [done|]. split; [done|]. split; [done|].
    intros p. simpl. unfold walked_files.
    rewrite elem_of_list_to_set, list_elem_of_fmap. by intros (q & -> & _).
Qed.

(** The two ways the config can fail.  A text that is not JSON:
    [json.loads] raises something that is no [IOError], which nothing
    catches, and the constructor raises it.  Something at the path of
    the config file that cannot be read: the [IOError] is caught and
    logged as an error, and the constructor goes on with the empty
    config. *)
Theorem init_config_errors (dir : string) (must_exist : bool) fs w :
  let wsdir := PosixPath.abspath cwd dir in
  (must_exist = true → isdir fs wsdir = true) →
  (∀ text e,
     fs !! PosixPath.join wsdir "config" = Some (FsFile text) →
     json_loads text = Raise e → (∀ msg, e ≠ IOError msg) →
     __init__ dir must_exist fs w = Raise e)
  ∧ (fs !! PosixPath.join wsdir "config" = Some FsDir →
     ∃ self,
       __init__ dir must_exist fs w
       = Ok (self,
             [LogRecord ERROR
                (FailedToWrite (PosixPath.join wsdir "config") "Is a directory");
              LogRecord INFO LoadingFileList])
       ∧ config self = empty_config).
Proof.
  intros wsdir Hdir. split.
  - intros text e Hfile Hjson Hne.
    unfold WorkspaceInit.__init__. fold wsdir. simpl workspace_dir.
    assert (must_exist && negb (isdir fs wsdir) = false) as ->.
    { destruct must_exist; [|done]. by rewrite Hdir. }
    unfold _load_config, read_file. simpl workspace_dir.
    rewrite Hfile. simpl. rewrite Hjson.
    destruct e as [| | | m | |]; try done. by destruct (Hne m).
  - intros Hfile. eexists. split.
    + apply (init_after_config dir must_exist fs w empty_config
               [LogRecord ERROR
                  (FailedToWrite (PosixPath.join wsdir "config") "Is a directory")]);
        [done|].
      fold wsdir. unfold _load_config, read_file, exists_. simpl workspace_dir.
      by rewrite Hfile.
    + done.
Qed.

End InitProps.

(** [test_init] and [test_exclude_files]: the constructor's files, by
    their absolute paths. *)
Example test_init :
  ∃ self logs,
    InitFixtures.init "/tmp/.workspace" false Fixtures.fs_no_workspace
    = Ok (self, logs)
    ∧ set_map Path.abs (Workspace.files self)
      = ({[ "/tmp/foo"; "/tmp/dir1"; "/tmp/dir1/file1";
            "/tmp/dir2"; "/tmp/dir2/file1" ]} : gset string).
Proof. eexists _, _. split; [reflexivity|]. by_running. Qed.

Example test_exclude_files_init :
  ∃ self logs,
    InitFixtures.init "/tmp/.workspace" true InitFixtures.fs_exclude
    = Ok (self, logs)
    ∧ set_map Path.abs (Workspace.files self)
      = ({[ "/tmp/foo"; "/tmp/dir1"; "/tmp/dir1/file1" ]} : gset string).
Proof. eexists _, _. split; [reflexivity|]. by_running. Qed.

(** [init_without_workspace_dir] at [test_init]. *)
Lemma init_without_workspace_dir_witness :
  (∃ msg,
     InitFixtures.init "/tmp/.workspace" true Fixtures.fs_no_workspace
     = Raise (OtherError msg))
  ∧ ∃ self,
      InitFixtures.init "/tmp/.workspace" false Fixtures.fs_no_workspace
      = Ok (self, [LogRecord INFO LoadingFileList])
      ∧ Workspace.root_dir self = "/tmp"%string.
Proof.
  destruct (init_without_workspace_dir PosixPath.normpath "/"
              InitFixtures.test_json_loads InitFixtures.test_tree_at
              "/tmp/.workspace" Fixtures.fs_no_workspace 0 eq_refl eq_refl)
    as [Hraise (self & Hinit & _ & _ & Hroot & _)].
  split; [exact Hraise|]. exists self. split; [exact Hinit|exact Hroot].
Defined.

(** [init_reads_config] at [test_exclude_files]. *)
Lemma init_reads_config_witness :
  ∃ self,
    InitFixtures.init "/tmp/.workspace" true InitFixtures.fs_exclude
    = Ok (self, [LogRecord INFO LoadingFileList])
    ∧ Workspace.exclude_files self = ["dir2"%string].
Proof.
  destruct (init_reads_config PosixPath.normpath "/"
              InitFixtures.test_json_loads InitFixtures.test_tree_at
              "/tmp/.workspace" true InitFixtures.fs_exclude 0
              "{exclude_files: [dir2]}"
              (Workspace.mkConfig None (Some ["dir2"%string]) None None)
              ltac:(reflexivity) eq_refl eq_refl)
    as (self & Hinit & Hcfg & _).
  exists self. split; [exact Hinit|].
  unfold Workspace.exclude_files. rewrite Hcfg. reflexivity.
Defined.

(** [init_config_errors]: a config that is not JSON, and a directory
    in the place of the config file. *)
Lemma init_config_errors_witness :
  InitFixtures.init "/tmp/.workspace" true InitFixtures.fs_not_json
  = Raise ValueError
  ∧ ∃ self logs,
      InitFixtures.init "/tmp/.workspace" true Fixtures.fs_config_is_dir
      = Ok (self, logs)
      ∧ Workspace.config self = Workspace.empty_config.
Proof.
  split.
  - exact (proj1 (init_config_errors PosixPath.normpath "/"
                    InitFixtures.test_json_loads InitFixtures.test_tree_at
                    "/tmp/.workspace" true InitFixtures.fs_not_json 0
                    ltac:(reflexivity))
             "not json" ValueError eq_refl eq_refl ltac:(discriminate)).
  - destruct (proj2 (init_config_errors PosixPath.normpath "/"
                       InitFixtures.test_json_loads InitFixtures.test_tree_at
                       "/tmp/.workspace" true Fixtures.fs_config_is_dir 0
                       ltac:(reflexivity)) eq_refl)
      as (self & Hinit & Hcfg).
    exists self. eexists. split; [exact Hinit|exact Hcfg].
Defined.

(** ** [PyFile]: more on loading *)

Section LoadMore.
Import PyFile.
Context {W Finder Parent : Type}.
Variable realpath : string → string.
Variable read_file : string → result string.
Variable parse : string → result ast.
Variable resolve_import :
  string → Finder → list string → result (Parent * list string).

Implicit Types (self : PyFile.t) (workspace : Workspace.t (W:=W))
  (finder : Finder) (parsed : list (string * bool))
  (acc : gset Path) (logs : list log_record).

Local Abbreviation load_imports := (PyFile.load_imports realpath resolve_import).
Local Abbreviation _load := (PyFile._load realpath read_file parse resolve_import).

(** The record logged for an entry of [parsed_imports], if one is. *)
Local Abbreviation failure_record self workspace finder :=
  (λ x : string * bool,
     match resolve_import x.1 finder (Workspace.python_path workspace) with
     | Raise (ImportError e) =>
         if x.2 then None
         else Some (LogRecord INFO (FailedToResolve (path self) x.1 e))
     | _ => None
     end).

(** [name] is imported somewhere in [tree]: by an [import], as the
    module of a [from ... import], or as [module.attr] of one. *)
Local Abbreviation imported tree name :=
  (∃ n, node_of n tree
        ∧ ((∃ names, n = Import names ∧ name ∈ names)
           ∨ (∃ names, n = ImportFrom name names)
           ∨ (∃ module names attr,
                n = ImportFrom module names ∧ attr ∈ names
                ∧ name = module +:+ "." +:+ attr))).

(** The imports of a file that loads are exactly the paths of the
    files found for the names it imports, wherever in the tree the
    import stands: names that do not resolve add nothing, and every
    path stored remembers the workspace's root directory. *)
Theorem load_imports_are_resolved self workspace finder
    (text : string) (tree : ast) (f : PyFile.t) logs :
  read_file (Path.abs (path self)) = Ok text →
  parse text = Ok tree →
  _load self workspace finder = Ok (f, logs) →
  (∀ p, p ∈ imports f ↔
     ∃ name parent paths q,
       imported tree name
       ∧ resolve_import name finder (Workspace.python_path workspace)
         = Ok (parent, paths)
       ∧ q ∈ paths
       ∧ p = Path.new realpath (realpath q) (Workspace.root_dir workspace))
  ∧ (∀ p, p ∈ imports f → Path.ws_root p = Workspace.root_dir workspace).
Proof.
  intros Hread Hparse. unfold PyFile._load. rewrite Hread. simpl. rewrite Hparse.
  destruct (load_imports self workspace finder (parsed_imports tree) ∅ [])
    as [[acc' logs']|e] eqn:Hload; [|done].
  simpl. intros [= <- <-]. simpl.
  apply load_imports_result in Hload as [Hacc _].
  assert (∀ p, p ∈ acc' ↔
     ∃ name parent paths q,
       imported tree name
       ∧ resolve_import name finder (Workspace.python_path workspace)
         = Ok (parent, paths)
       ∧ q ∈ paths
       ∧ p = Path.new realpath (realpath q) (Workspace.root_dir workspace))
    as Hchar.
  { intros p. rewrite Hacc. split.
    - intros [?%elem_of_empty|(name & flag & pa & ps & q & Hin & Hn & Hq & ->)];
        [done|].
      exists name, pa, ps, q. split; [|done].
      apply elem_of_parsed_imports in Hin as (n & Hn' & Hin).
      exists n. split; [done|].
      apply elem_of_node_imports in Hin. destruct flag; [by right; right|].
      destruct Hin; [by left|by right; left].
    - intros (name & pa & ps & q & (n & Hn' & Hkind) & Hn & Hq & ->). right.
      destruct Hkind as [Hk|[Hk|Hk]].
      + exists name, false, pa, ps, q. split; [|done].
        apply elem_of_parsed_imports. exists n. split; [done|].
        apply elem_of_node_imports. by left.
      + exists name, false, pa, ps, q. split; [|done].
        apply elem_of_parsed_imports. exists n. split; [done|].
        apply elem_of_node_imports. by right.
      + exists name, true, pa, ps, q. split; [|done].
        apply elem_of_parsed_imports. exists n. split; [done|].
        by apply elem_of_node_imports. }
  split; [exact Hchar|].
  intros p (? & ? & ? & ? & _ & _ & _ & ->)%Hchar. done.
Qed.

(** What a load logs: one record of level [INFO] for every entry of
    [parsed_imports] that does not resolve and is not flagged, in the
    order of the entries, and nothing else. *)
Theorem load_logs_failures self workspace finder
    (text : string) (tree : ast) (f : PyFile.t) logs :
  read_file (Path.abs (path self)) = Ok text →
  parse text = Ok tree →
  _load self workspace finder = Ok (f, logs) →
  logs = omap (failure_record self workspace finder) (parsed_imports tree)
  ∧ ∀ r, r ∈ logs →
      ∃ name e,
        r = LogRecord INFO (FailedToResolve (path self) name e)
        ∧ (name, false) ∈ parsed_imports tree
        ∧ resolve_import name finder (Workspace.python_path workspace)
          = Raise (ImportError e).
Proof.
  intros Hread Hparse. unfold PyFile._load. rewrite Hread. simpl. rewrite Hparse.
  destruct (load_imports self workspace finder (parsed_imports tree) ∅ [])
    as [[acc' logs']|e] eqn:Hload; [|done].
  simpl. intros [= <- <-].
  apply load_imports_result in Hload as [_ ->]. simpl. split; [done|].
  intros r ([name flag] & Hin & Hr)%list_elem_of_omap. simpl in Hr.
  destruct (resolve_import name finder (Workspace.python_path workspace))
    as [?|[| | | |e|]] eqn:Hres; try done.
  destruct flag; [done|]. injection Hr as <-. by exists name, e.
Qed.

(** A load keeps the path and the edges of the vertex, and where the
    file parses it builds the imports anew: what the vertex held as
    imports before has no part in the result. *)
Theorem load_replaces_imports self workspace finder
    (text : string) (tree : ast) (old : gset Path) :
  read_file (Path.abs (path self)) = Ok text →
  parse text = Ok tree →
  _load (PyFile.mk (path self) old (outgoing self) (incoming self))
    workspace finder
  = _load self workspace finder
  ∧ ∀ f logs, _load self workspace finder = Ok (f, logs) →
      path f = path self ∧ outgoing f = outgoing self
      ∧ incoming f = incoming self.
Proof.
  intros Hread Hparse. unfold PyFile._load. simpl. rewrite Hread. simpl.
  rewrite Hparse.
  assert (∀ parsed acc logs,
            load_imports (PyFile.mk (path self) old (outgoing self) (incoming self))
              workspace finder parsed acc logs
            = load_imports self workspace finder parsed acc logs) as Hsame.
  { induction parsed as [|[name flag] parsed IH]; intros acc logs; [done|].
    simpl. destruct (resolve_import _ _ _) as [[? ?]|[| | | |?|]]; try done;
      apply IH. }
  rewrite Hsame. split; [done|]. intros f logs.
  destruct (load_imports self workspace finder (parsed_imports tree) ∅ [])
    as [[acc' logs']|e]; [|done].
  simpl. by intros [= <- _].
Qed.

(** An exception of the resolver that is no [ImportError] is not
    caught: the load raises it. *)
Theorem load_raises_other_errors self workspace finder
    (text : string) (tree : ast) parsed1 parsed2 (name : string) (flag : bool)
    (e : exn) r :
  read_file (Path.abs (path self)) = Ok text →
  parse text = Ok tree →
  parsed_imports tree = parsed1 ++ (name, flag) :: parsed2 →
  load_imports self workspace finder parsed1 ∅ [] = Ok r →
  resolve_import name finder (Workspace.python_path workspace) = Raise e →
  (∀ msg, e ≠ ImportError msg) →
  _load self workspace finder = Raise e.
Proof.
  intros Hread Hparse Hparsed Hfirst Hres Hne.
  unfold PyFile._load. rewrite Hread. simpl. rewrite Hparse, Hparsed.
  rewrite (load_imports_app realpath resolve_import), Hfirst.
  destruct r as [acc1 logs1]. simpl. rewrite Hres.
  destruct e as [| | | |m|]; try done. by destruct (Hne m).
Qed.

End LoadMore.

(** [load_imports_are_resolved] at [test_load_from_import_mod]: the
    module named by the attribute is among the imports. *)
Lemma load_imports_are_resolved_witness :
  ∃ f, Fixtures.load_src "from root.pkg import mod" = Ok (f, [])
       ∧ Path.mk "/root/pkg/mod.py" "/tmp" ∈ PyFile.imports f.
Proof.
  eexists. split; [reflexivity|].
  refine (proj2 (proj1 (load_imports_are_resolved PosixPath.normpath
                   (Fixtures.read_const "from root.pkg import mod")
                   Fixtures.test_parse Resolver.resolve_import
                   Fixtures.src_py (Fixtures.test_workspace None [])
                   Fixtures.test_finder "from root.pkg import mod"
                   (PyFile.Node [PyFile.ImportFrom "root.pkg" ["mod"%string]])
                   _ [] eq_refl eq_refl eq_refl) _) _).
  exists "root.pkg.mod"%string, ["/root/pkg/"%string],
    ["/root/__init__.py"; "/root/pkg/__init__.py"; "/root/pkg/mod.py"]%string,
    "/root/pkg/mod.py"%string.
  split; [|split; [reflexivity|split; [|reflexivity]]].
  - exists (PyFile.ImportFrom "root.pkg" ["mod"%string]). split.
    + eapply PyFile.node_of_child; [left|constructor].
    + right. right. exists "root.pkg"%string, ["mod"%string], "mod"%string.
      split; [reflexivity|]. split; [left|reflexivity].
  - right. right. left.
Defined.

(** [load_logs_failures] for a file that imports a name not to be
    found: one record. *)
Lemma load_logs_failures_witness :
  ∃ f logs,
    PyFile._load PosixPath.normpath (Fixtures.read_const "import nosuch")
      (λ _, Ok (PyFile.Node [PyFile.Import ["nosuch"%string]]))
      Resolver.resolve_import Fixtures.src_py
      (Fixtures.test_workspace None []) Fixtures.test_finder
    = Ok (f, logs)
    ∧ logs = [LogRecord INFO
                (FailedToResolve (Path.mk "/tmp/src.py" "/tmp") "nosuch"
                   "No module named nosuch")].
Proof.
  eexists _, _. split; [reflexivity|].
  exact (proj1 (load_logs_failures PosixPath.normpath
                  (Fixtures.read_const "import nosuch")
                  (λ _, Ok (PyFile.Node [PyFile.Import ["nosuch"%string]]))
                  Resolver.resolve_import Fixtures.src_py
                  (Fixtures.test_workspace None []) Fixtures.test_finder
                  "import nosuch" (PyFile.Node [PyFile.Import ["nosuch"%string]])
                  _ _ eq_refl eq_refl eq_refl)).
Defined.

(** [load_replaces_imports]: loading [src.py] again, with imports
    already there, gives what the first load gave. *)
Lemma load_replaces_imports_witness :
  PyFile._load PosixPath.normpath (Fixtures.read_const "import root.pkg.mod")
    Fixtures.test_parse Resolver.resolve_import
    (PyFile.mk (Path.mk "/tmp/src.py" "/tmp")
       {[Path.mk "/tmp/old.py" "/tmp"]} ∅ ∅)
    (Fixtures.test_workspace None []) Fixtures.test_finder
  = PyFile._load PosixPath.normpath (Fixtures.read_const "import root.pkg.mod")
      Fixtures.test_parse Resolver.resolve_import Fixtures.src_py
      (Fixtures.test_workspace None []) Fixtures.test_finder.
Proof.
  exact (proj1 (load_replaces_imports PosixPath.normpath
                  (Fixtures.read_const "import root.pkg.mod")
                  Fixtures.test_parse Resolver.resolve_import Fixtures.src_py
                  (Fixtures.test_workspace None []) Fixtures.test_finder
                  "import root.pkg.mod"
                  (PyFile.Node [PyFile.Import ["root.pkg.mod"%string]])
                  {[Path.mk "/tmp/old.py" "/tmp"]} eq_refl eq_refl)).
Defined.

(** [load_raises_other_errors] with a resolver that fails otherwise. *)
Lemma load_raises_other_errors_witness :
  PyFile._load (W:=nat) (Finder:=unit) (Parent:=unit) PosixPath.normpath
    (Fixtures.read_const "import nosuch")
    (λ _, Ok (PyFile.Node [PyFile.Import ["nosuch"%string]]))
    (λ _ _ _, Raise (OtherError "boom")) Fixtures.src_py
    (Fixtures.test_workspace None []) ()
  = Raise (OtherError "boom").
Proof.
  exact (load_raises_other_errors (W:=nat) (Finder:=unit) (Parent:=unit)
           PosixPath.normpath (Fixtures.read_const "import nosuch")
           (λ _, Ok (PyFile.Node [PyFile.Import ["nosuch"%string]]))
           (λ _ _ _, Raise (OtherError "boom")) Fixtures.src_py
           (Fixtures.test_workspace None []) ()
           "import nosuch" (PyFile.Node [PyFile.Import ["nosuch"%string]])
           [] [] "nosuch" false (OtherError "boom") (∅, [])
           eq_refl eq_refl eq_refl eq_refl eq_refl ltac:(discriminate)).
Defined.

(** ** [PyFile]: more on linking *)

Section VisitMore.
Import PyFile.
Variable find_file : Path → option vid.

Implicit Types (σ : gmap vid PyFile.t) (self v : vid) (l : list Path).

(** What the loop of [visit] over [l] makes of the vertex [g] kept at
    [v]. *)
Local Abbreviation linked self l v :=
  (λ g : PyFile.t,
     PyFile.mk (path g) (imports g)
       (outgoing g
          ∪ (if decide (v = self)
             then list_to_set (mkEdge IMPORT self <$> omap find_file l)
             else ∅))
       (incoming g
          ∪ (if decide (v ∈ omap find_file l)
             then {[mkEdge IMPORT self v]} else ∅))).

Lemma visit_lookup σ self (f : PyFile.t) v :
  σ !! self = Some f →
  visit find_file self σ !! v
  = linked self (elements (imports f)) v <$> σ !! v.
Proof. intros Hself. unfold visit. rewrite Hself. apply visit_fold. Qed.

Lemma visit_lookup_None σ self v :
  σ !! v = None → visit find_file self σ !! v = None.
Proof.
  intros Hv. unfold visit. destruct (σ !! self) as [f|] eqn:Hself; [|done].
  by rewrite visit_fold, Hv.
Qed.

(** Linking a vertex a second time changes nothing: no edge is stored
    twice. *)
Theorem visit_idempotent σ self :
  visit find_file self (visit find_file self σ) = visit find_file self σ.
Proof.
  destruct (σ !! self) as [f|] eqn:Hself.
  - apply map_eq. intros v.
    assert (visit find_file self σ !! self
            = Some (linked self (elements (imports f)) self f)) as Hself'.
    { by rewrite (visit_lookup σ self f), Hself. }
    rewrite (visit_lookup _ self _ v Hself'). simpl.
    rewrite (visit_lookup σ self f v Hself).
    destruct (σ !! v) as [g|]; [|done]. simpl. f_equal.
    apply t_eq; simpl; try done; repeat case_decide; set_solver.
  - unfold visit at 2. rewrite Hself. unfold visit. by rewrite Hself.
Qed.

(** The order in which two vertices are linked does not matter. *)
Theorem visit_commute σ (a b : vid) :
  visit find_file a (visit find_file b σ)
  = visit find_file b (visit find_file a σ).
Proof.
  destruct (σ !! a) as [fa|] eqn:Ha; destruct (σ !! b) as [fb|] eqn:Hb.
  - apply map_eq. intros v.
    assert (visit find_file b σ !! a
            = Some (linked b (elements (imports fb)) a fa)) as Ha'.
    { by rewrite (visit_lookup σ b fb), Ha. }
    assert (visit find_file a σ !! b
            = Some (linked a (elements (imports fa)) b fb)) as Hb'.
    { by rewrite (visit_lookup σ a fa), Hb. }
    rewrite (visit_lookup _ a _ v Ha'), (visit_lookup _ b _ v Hb'). simpl.
    rewrite (visit_lookup σ b fb v Hb), (visit_lookup σ a fa v Ha).
    destruct (σ !! v) as [g|]; [|done]. simpl. f_equal.
    apply t_eq; simpl; try done; repeat case_decide; set_solver.
  - assert (visit find_file b σ = σ) as Hb0 by (unfold visit; by rewrite Hb).
    rewrite Hb0. symmetry. unfold visit at 1.
    by rewrite (visit_lookup_None σ a b Hb).
  - assert (visit find_file a σ = σ) as Ha0 by (unfold visit; by rewrite Ha).
    rewrite Ha0. unfold visit at 1.
    by rewrite (visit_lookup_None σ b a Ha).
  - assert (visit find_file a σ = σ) as -> by (unfold visit; by rewrite Ha).
    assert (visit find_file b σ = σ) as -> by (unfold visit; by rewrite Hb).
    unfold visit. by rewrite Ha.
Qed.

(** A vertex none of whose imports is kept in the graph (one without
    imports among them: a file that did not parse, a vertex made without
    loading) is left as it is by the linking, and so is the rest of the
    graph. *)
Theorem visit_nothing_found σ self (f : PyFile.t) :
  σ !! self = Some f →
  (∀ i, i ∈ imports f → find_file i = None) →
  visit find_file self σ = σ.
Proof.
  intros Hself Hnone. apply map_eq. intros v.
  rewrite (visit_lookup σ self f v Hself).
  assert (omap find_file (elements (imports f)) = []) as ->.
  { assert (∀ l, (∀ i, i ∈ l → find_file i = None) → omap find_file l = [])
      as Hl.
    { induction l as [|i l IH]; [done|]. intros Hall. simpl.
      rewrite (Hall i) by left. apply IH. intros j Hj. apply Hall. by right. }
    apply Hl. intros i Hi. apply Hnone. by apply elem_of_elements. }
  destruct (σ !! v) as [g|]; [|done]. simpl. f_equal.
  apply t_eq; simpl; try done; try case_decide; set_solver.
Qed.

(** Linking keeps the graph well linked: where every edge is held at
    both of its ends before, and what [find_file] finds is a vertex of
    the graph, the same holds after. *)
Theorem visit_keeps_well_linked σ self :
  Linked.well_linked σ →
  (∀ i d, find_file i = Some d → is_Some (σ !! d)) →
  Linked.well_linked (visit find_file self σ).
Proof.
  intros Hwl Hfound.
  destruct (σ !! self) as [f|] eqn:Hself;
    [|by (unfold visit; rewrite Hself)].
  set (l := elements (imports f)).
  assert (∀ d, d ∈ omap find_file l → is_Some (σ !! d)) as Hin.
  { intros d (i & _ & Hd)%list_elem_of_omap. by eapply Hfound. }
  intros v g' e. rewrite (visit_lookup σ self f v Hself). fold l.
  destruct (σ !! v) as [g|] eqn:Hv; [|done]. simpl. intros [= <-]. simpl.
  destruct (Hwl v g e Hv) as [Hout Hinc].
  split.
  - rewrite elem_of_union. intros [He|He].
    + destruct (Hout He) as (Hsrc & g2 & Hg2 & He2). split; [done|].
      eexists. rewrite (visit_lookup σ self f _ Hself), Hg2. simpl.
      split; [reflexivity|]. simpl. set_solver.
    + case_decide as Hvs; [|by apply elem_of_empty in He]. subst v.
      apply elem_of_list_to_set, list_elem_of_fmap in He as (d & -> & Hd).
      simpl. split; [done|].
      destruct (Hin d Hd) as [gd Hgd].
      eexists. rewrite (visit_lookup σ self f _ Hself), Hgd. simpl.
      split; [reflexivity|]. simpl. fold l. rewrite decide_True by done.
      set_solver.
  - rewrite elem_of_union. intros [He|He].
    + destruct (Hinc He) as (Hdst & g2 & Hg2 & He2). split; [done|].
      eexists. rewrite (visit_lookup σ self f _ Hself), Hg2. simpl.
      split; [reflexivity|]. simpl. set_solver.
    + case_decide as Hvd; [|by apply elem_of_empty in He].
      apply elem_of_singleton in He as ->. simpl. split; [done|].
      eexists. rewrite (visit_lookup σ self f _ Hself), Hself. simpl.
      split; [reflexivity|]. simpl. fold l. rewrite decide_True by done.
      apply elem_of_union. right.
      apply elem_of_list_to_set, list_elem_of_fmap. by exists v.
Qed.

End VisitMore.

(** [visit_nothing_found]: linking from [b.py], which imports nothing. *)
Lemma visit_nothing_found_witness :
  PyFile.visit Fixtures.test_find_file 1 Fixtures.test_store = Fixtures.test_store.
Proof.
  refine (visit_nothing_found Fixtures.test_find_file Fixtures.test_store 1
            (PyFile.mk Fixtures.path_b ∅ ∅ ∅) eq_refl _).
  intros i Hi. by apply elem_of_empty in Hi.
Defined.

(** [visit_keeps_well_linked] at the graph of the fixture, which has no
    edges to begin with. *)
Lemma visit_keeps_well_linked_witness :
  Linked.well_linked (PyFile.visit Fixtures.test_find_file 0 Fixtures.test_store).
Proof.
  apply visit_keeps_well_linked.
  - intros v g e Hv.
    assert (PyFile.outgoing g = ∅ ∧ PyFile.incoming g = ∅) as [Ho Hi].
    { unfold Fixtures.test_store in Hv.
      apply lookup_insert_Some in Hv as [[_ <-]|[_ Hv]]; [done|].
      by apply lookup_singleton_Some in Hv as [_ <-]. }
    rewrite Ho, Hi. split; by intros ?%elem_of_empty.
  - intros i d. unfold Fixtures.test_find_file.
    repeat case_decide; intros [= <-]; by eexists.
Defined.

(** ** [new_file] *)

Section NewFileProps.
Import PyFile NewFile.
Context {W Finder Parent : Type}.
Variable realpath : string → string.
Variable read_file : string → result string.
Variable parse : string → result ast.
Variable resolve_import :
  string → Finder → list string → result (Parent * list string).
Variable isfile : string → bool.
Variable find_module : Finder.

Local Abbreviation new_file :=
  (NewFile.new_file (W:=W) realpath read_file parse resolve_import
     isfile find_module).

Lemma new_keeps_path (p : Path) (workspace : Workspace.t (W:=W))
    (finder : Finder) (no_load : bool) (f : PyFile.t) (logs : list log_record) :
  PyFile.new realpath read_file parse resolve_import p workspace finder no_load
  = Ok (f, logs) →
  path f = p ∧ outgoing f = ∅ ∧ incoming f = ∅
  ∧ (no_load = true → imports f = ∅ ∧ logs = []).
Proof.
  unfold PyFile.new. destruct no_load.
  - by intros [= <- <-].
  - unfold PyFile._load. simpl.
    destruct (read_file (Path.abs p)) as [text|]; [|done]. simpl.
    destruct (parse text) as [tree|[| |e| | |]]; try done.
    + destruct (PyFile.load_imports _ _ _ _ _ _ _ _) as [[acc logs']|]; [|done].
      simpl. by intros [= <- <-].
    + by intros [= <- <-].
Qed.

(** [new_file] makes a vertex only for a file that exists and whose
    name ends in [.py]; the vertex has the path asked for and no edges,
    and, made for an external file, no imports either, with nothing
    read or logged.  It logs an unrecognized type only for a file that
    exists and ends in neither [.py] nor [.pyc].  For an external file
    it never raises. *)
Theorem new_file_vertex (p : Path) (workspace : Workspace.t (W:=W))
    (external : bool) :
  (∀ f logs, new_file p workspace external = Ok (Some f, logs) →
     isfile (Path.abs p) = true
     ∧ endswith (Path.abs p) ".py" = true
     ∧ path f = p ∧ outgoing f = ∅ ∧ incoming f = ∅
     ∧ (external = true → imports f = ∅ ∧ logs = []))
  ∧ (∀ r q, new_file p workspace external = Ok r →
       UnrecognizedFileType q ∈ r.2 →
       r.1 = None ∧ q = p ∧ isfile (Path.abs p) = true
       ∧ endswith (Path.abs p) ".py" = false
       ∧ endswith (Path.abs p) ".pyc" = false)
  ∧ ∃ r, new_file p workspace true = Ok r.
Proof.
  unfold NewFile.new_file. split; [|split].
  - intros f logs.
    destruct (isfile (Path.abs p)); simpl; [|done].
    destruct (endswith (Path.abs p) ".py").
    + destruct (PyFile.new _ _ _ _ _ _ _ _) as [[f' logs']|] eqn:Hnew; [|done].
      intros [= <- <-].
      destruct (new_keeps_path _ _ _ _ _ _ Hnew) as (? & ? & ? & Hext).
      do 5 (split; [done|]).
      intros Hx. destruct (Hext Hx) as [? ->]. done.
    + by destruct (endswith (Path.abs p) ".pyc").
  - intros r q.
    destruct (isfile (Path.abs p)); simpl;
      [|by intros [= <-] ?%elem_of_nil].
    destruct (endswith (Path.abs p) ".py").
    + destruct (PyFile.new _ _ _ _ _ _ _ _) as [[f' logs']|]; [|done].
      intros [= <-]. simpl.
      by intros (? & ? & _)%list_elem_of_fmap.
    + destruct (endswith (Path.abs p) ".pyc");
        intros [= <-]; simpl; [by intros ?%elem_of_nil|].
      by intros [= ->]%list_elem_of_singleton.
  - destruct (isfile (Path.abs p)); simpl; [|by eexists].
    destruct (endswith (Path.abs p) ".py"); simpl; [by eexists|].
    destruct (endswith (Path.abs p) ".pyc"); by eexists.
Qed.

End NewFileProps.

(** [new_file_vertex] for [src.py], an external file. *)
Lemma new_file_vertex_witness :
  ∃ f logs,
    NewFile.new_file (W:=nat) PosixPath.normpath
      (Fixtures.read_const "import root.pkg.mod") Fixtures.test_parse
      Resolver.resolve_import (λ _, true) Fixtures.test_finder
      (Path.mk "/tmp/src.py" "/tmp") (Fixtures.test_workspace None []) true
    = Ok (Some f, logs)
    ∧ PyFile.path f = Path.mk "/tmp/src.py" "/tmp"
    ∧ PyFile.imports f = ∅.
Proof.
  eexists _, _. split; [reflexivity|].
  destruct (proj1 (new_file_vertex (W:=nat) PosixPath.normpath
                     (Fixtures.read_const "import root.pkg.mod")
                     Fixtures.test_parse Resolver.resolve_import (λ _, true)
                     Fixtures.test_finder (Path.mk "/tmp/src.py" "/tmp")
                     (Fixtures.test_workspace None []) true)
              _ _ eq_refl) as (_ & _ & Hpath & _ & _ & Hext).
  split; [exact Hpath|]. exact (proj1 (Hext eq_refl)).
Defined.

(** The kinds of file [new_file] tells apart. *)
Example new_file_kinds :
  let new_file p :=
    NewFile.new_file (W:=nat) PosixPath.normpath
      (Fixtures.read_const "") Fixtures.test_parse
      Resolver.resolve_import (λ a, negb (String.eqb a "/tmp/gone.py"))
      Fixtures.test_finder (Path.mk p "/tmp") (Fixtures.test_workspace None [])
      false in
  new_file "/tmp/gone.py"%string = Ok (None, [])
  ∧ new_file "/tmp/src.pyc"%string = Ok (None, [])
  ∧ new_file "/tmp/notes.txt"%string
    = Ok (None, [NewFile.UnrecognizedFileType (Path.mk "/tmp/notes.txt" "/tmp")])
  ∧ new_file "/tmp/src.py"%string = Ok (Some Fixtures.src_py, []).
Proof. cbv zeta. repeat split; reflexivity. Qed.
